(** * ApiConfig: validation, placeholder expansion and launch-argument override

    A shallow embedding of [src/api/core/configs/_api.py]: the pydantic model
    [ApiConfig] with its "before" model validator [_check_args] and its field
    validators [_check_slug], [_check_prefix], [_check_docs], [_check_paths].

    Python strings are sequences of code points; here a string is a Rocq
    [string] whose characters are the code points below 256, so the character
    classes below (white space, upper case, decimal digits) are Python's on
    that range. *)

From Stdlib Require Import String Ascii List ZArith Lia Bool.
Import ListNotations.

Local Open Scope string_scope.
Local Open Scope list_scope.

(** ** Outcomes of Python code *)

Inductive exn : Type :=
| KeyError (key : string)
| IndexError
| ValueError
| ValidationError (loc : list string).

(** A call returns a value, raises, or leaves the fragment of [str.format]
    that is modelled here (conversions, format specifications, attribute and
    index lookups inside a replacement field). *)
Inductive result (A : Type) : Type :=
| Ok (a : A)
| Raise (e : exn)
| Unmodelled.

Arguments Ok {A} a.
Arguments Raise {A} e.
Arguments Unmodelled {A}.

Definition bind {A B : Type} (r : result A) (k : A -> result B) : result B :=
  match r with
  | Ok a => k a
  | Raise e => Raise e
  | Unmodelled => Unmodelled
  end.

Definition fmap {A B : Type} (f : A -> B) (r : result A) : result B :=
  bind r (fun a => Ok (f a)).

Notation "x <- r ;; k" := (bind r (fun x => k))
  (at level 61, r at next level, right associativity).

(** ** Python's [str] *)

Module Str.

Definition code (c : ascii) : nat := nat_of_ascii c.

Definition between (lo hi : nat) (c : ascii) : bool :=
  (lo <=? code c)%nat && (code c <=? hi)%nat.

(** [str.isspace] on one character: what [str.strip()] removes. *)
Definition isspace (c : ascii) : bool :=
  between 9 13 c || between 28 32 c
  || (code c =? 133)%nat || (code c =? 160)%nat.

(** Unicode White_Space: what pydantic's [strip_whitespace] removes and what
    [int()] skips around a number.  It leaves out the separators 28 to 31,
    which [str.isspace] counts in. *)
Definition is_white_space (c : ascii) : bool :=
  between 9 13 c || (code c =? 32)%nat
  || (code c =? 133)%nat || (code c =? 160)%nat.

Definition isupper (c : ascii) : bool :=
  between 65 90 c || between 192 214 c || between 216 222 c.

Definition isdigit (c : ascii) : bool := between 48 57 c.

Definition lower_char (c : ascii) : ascii :=
  if isupper c then ascii_of_nat (code c + 32) else c.

Fixpoint map (f : ascii -> ascii) (s : string) : string :=
  match s with
  | EmptyString => EmptyString
  | String c r => String (f c) (map f r)
  end.

Fixpoint forallb (p : ascii -> bool) (s : string) : bool :=
  match s with
  | EmptyString => true
  | String c r => p c && forallb p r
  end.

(** Capital letters of ASCII. *)
Definition is_ascii_capital (c : ascii) : bool := between 65 90 c.

(** [s.lower()], on the code points a string holds here: beyond 255 Python
    has capital letters that [lower()] keeps, so nothing is concluded below
    about capitals other than those of ASCII. *)
Definition lower (s : string) : string := map lower_char s.

(** [s.replace(old, new)] for one-character [old] and [new]. *)
Definition replace (old new : ascii) (s : string) : string :=
  map (fun c => if Ascii.eqb c old then new else c) s.

Fixpoint lstrip_by (sp : ascii -> bool) (s : string) : string :=
  match s with
  | EmptyString => EmptyString
  | String c r => if sp c then lstrip_by sp r else s
  end.

Fixpoint rstrip_by (sp : ascii -> bool) (s : string) : string :=
  match s with
  | EmptyString => EmptyString
  | String c r =>
      match rstrip_by sp r with
      | EmptyString => if sp c then EmptyString else String c EmptyString
      | r' => String c r'
      end
  end.

Definition strip_by (sp : ascii -> bool) (s : string) : string :=
  rstrip_by sp (lstrip_by sp s).

(** [s.strip()] *)
Definition strip (s : string) : string := strip_by isspace s.

(** [s.startswith(p)] *)
Fixpoint startswith (s p : string) : bool :=
  match p, s with
  | EmptyString, _ => true
  | String _ _, EmptyString => false
  | String b p', String a s' => Ascii.eqb a b && startswith s' p'
  end.

(** [s.endswith(p)]: some suffix of [s] is [p]. *)
Fixpoint endswith (s p : string) : bool :=
  String.eqb s p ||
  match s with
  | EmptyString => false
  | String _ s' => endswith s' p
  end.

(** [p in s] *)
Fixpoint contains (s p : string) : bool :=
  startswith s p ||
  match s with
  | EmptyString => false
  | String _ s' => contains s' p
  end.

(** [s.split(sep)] for a one-character separator. *)
Fixpoint split (sep : ascii) (s : string) : list string :=
  match s with
  | EmptyString => [EmptyString]
  | String c r =>
      if Ascii.eqb c sep then EmptyString :: split sep r
      else match split sep r with
           | h :: t => String c h :: t
           | [] => [String c EmptyString]
           end
  end.

(** [xs[i]] on a list. *)
Definition item {A : Type} (xs : list A) (i : nat) : result A :=
  match nth_error xs i with
  | Some x => Ok x
  | None => Raise IndexError
  end.

(** *** [int(s)] *)

Definition digit_val (c : ascii) : Z := Z.of_nat (code c - 48).

(** Decimal digits, single underscores allowed between two digits. *)
Fixpoint int_digits (after_digit : bool) (acc : Z) (s : string) : option Z :=
  match s with
  | EmptyString => if after_digit then Some acc else None
  | String c r =>
      if Ascii.eqb c "_" then
        if after_digit then int_digits false acc r else None
      else if isdigit c then int_digits true (acc * 10 + digit_val c) r
      else None
  end.

Definition int_signed (s : string) : option Z :=
  match s with
  | String c r =>
      if Ascii.eqb c "-" then option_map Z.opp (int_digits false 0 r)
      else if Ascii.eqb c "+" then int_digits false 0 r
      else int_digits false 0 s
  | EmptyString => None
  end.

(** [int(s)]: surrounding white space ([is_white_space], not [isspace]: a
    separator 28 to 31 is a ValueError) is dropped, then an optional sign and
    the digits are read; anything else is a ValueError.  Interpreters that cap
    the length of a decimal literal (4300 digits) raise where older ones
    convert, so longer inputs are left out of the model. *)
Definition int (s : string) : result Z :=
  let t := strip_by is_white_space s in
  if (4300 <? String.length t)%nat then Unmodelled
  else match int_signed t with
       | Some z => Ok z
       | None => Raise ValueError
       end.

(** *** [template.format(key=value)] *)

(** The object a replacement field named [name] stands for, when the call
    passes the single keyword argument [key=value]. *)
Definition field_value (key value name : string) : result string :=
  if String.eqb name key then Ok value
  else
    let arg := hd EmptyString (split "." name) in
    if String.eqb arg key then Unmodelled
    else if String.eqb arg EmptyString then Raise IndexError
    else if forallb isdigit arg then
      if (String.length arg <=? 9)%nat then Raise IndexError else Unmodelled
    else Raise (KeyError arg).

(** [fmt_text] reads literal text, where a doubled brace stands for one brace;
    [fmt_field name] reads the rest of a replacement field whose first
    characters were [name]. *)
Fixpoint fmt_text (key value s : string) {struct s} : result string :=
  match s with
  | EmptyString => Ok EmptyString
  | String c r =>
      if Ascii.eqb c "{" then
        match r with
        | EmptyString => Raise ValueError
        | String c' r' =>
            if Ascii.eqb c' "{" then fmap (String "{") (fmt_text key value r')
            else fmt_field key value EmptyString r
        end
      else if Ascii.eqb c "}" then
        match r with
        | EmptyString => Raise ValueError
        | String c' r' =>
            if Ascii.eqb c' "}" then fmap (String "}") (fmt_text key value r')
            else Raise ValueError
        end
      else fmap (String c) (fmt_text key value r)
  end
with fmt_field (key value name s : string) {struct s} : result string :=
  match s with
  | EmptyString => Raise ValueError
  | String c r =>
      if Ascii.eqb c "}" then
        v <- field_value key value name ;;
        fmap (String.append v) (fmt_text key value r)
      else if Ascii.eqb c "{" then Raise ValueError
      else if Ascii.eqb c "[" || Ascii.eqb c ":" || Ascii.eqb c "!" then Unmodelled
      else fmt_field key value (name ++ String c EmptyString) r
  end.

Definition format (template key value : string) : result string :=
  fmt_text key value template.

End Str.

(** ** The data model *)

(** Modelled from the spec: [HTTPSchemeEnum] is declared in
    [api.core.constants], which is not among the sources; the spec gives the
    scheme as the enumeration of http and https. *)
Inductive HTTPSchemeEnum : Type := http | https.

(** Modelled from the spec: [DocsConfig] is declared in [_docs.py], which is
    not among the sources; the spec gives it an enabled flag and four optional
    URL templates, named here as [_check_docs] names them. *)
Record DocsConfig : Type := {
  docs_enabled : bool;
  openapi_url : option string;
  docs_url : option string;
  redoc_url : option string;
  swagger_ui_oauth2_redirect_url : option string
}.

(** Modelled from the spec: [PathsConfig] is declared in [_paths.py], which is
    not among the sources; the spec gives it the temp, uploads and data
    directory templates, named here as [_check_paths] names them. *)
Record PathsConfig : Type := {
  tmp_dir : string;
  uploads_dir : string;
  data_dir : string
}.

(** [info.data]: the fields validated so far, for the keys the validators
    look up. *)
Record ValidationInfo : Type := {
  data_name : option string;
  data_slug : option string;
  data_version : option string;
  data_prefix : option string
}.

Definition no_data : ValidationInfo :=
  {| data_name := None; data_slug := None; data_version := None; data_prefix := None |}.

Definition value {A : Type} (r : result A) : option A :=
  match r with
  | Ok a => Some a
  | _ => None
  end.

Definition truthy (s : string) : bool := negb (String.eqb s EmptyString).

(** ** Field constraints *)

(** A field declared [Field(...)] has no default. *)
Definition required {A : Type} (raw : option A) : result A :=
  match raw with
  | Some a => Ok a
  | None => Raise ValueError
  end.

(** [constr(strip_whitespace=True)] with [min_length] and [max_length]. *)
Definition constr (min_length max_length : nat) (raw : string) : result string :=
  let v := Str.strip_by Str.is_white_space raw in
  if (String.length v <? min_length)%nat then Raise ValueError
  else if (max_length <? String.length v)%nat then Raise ValueError
  else Ok v.

(** [port: int = Field(..., ge=80, lt=65536)] *)
Definition check_port (p : Z) : result Z :=
  if (80 <=? p)%Z && (p <? 65536)%Z then Ok p else Raise ValueError.

(** [gzip_min_size: int = Field(..., ge=0, le=10_485_760)] *)
Definition check_gzip_min_size (n : Z) : result Z :=
  if (0 <=? n)%Z && (n <=? 10485760)%Z then Ok n else Raise ValueError.

(** ** Field validators *)

Definition _check_slug (val : string) (info : ValidationInfo) : result string :=
  match data_name info with
  | Some name =>
      if negb (truthy val) then
        Ok (Str.replace "." "-"
              (Str.replace "_" "-"
                 (Str.replace " " "-" (Str.strip (Str.lower name)))))
      else Ok val
  | None => Ok val
  end.

Definition _check_prefix (val : string) (info : ValidationInfo) : result string :=
  match data_version info with
  | Some version =>
      if truthy val && Str.contains val "{api_version}" then
        Str.format val "api_version" version
      else Ok val
  | None => Ok val
  end.

(** One URL of [_check_docs]: expanded when it is set, not empty and holds the
    placeholder. *)
Definition expand_url (url : option string) (api_prefix : string)
  : result (option string) :=
  match url with
  | Some u =>
      if truthy u && Str.contains u "{api_prefix}" then
        fmap Some (Str.format u "api_prefix" api_prefix)
      else Ok url
  | None => Ok None
  end.

Definition _check_docs (val : DocsConfig) (info : ValidationInfo) : result DocsConfig :=
  match data_prefix info with
  | Some api_prefix =>
      if docs_enabled val then
        o <- expand_url (openapi_url val) api_prefix ;;
        d <- expand_url (docs_url val) api_prefix ;;
        r <- expand_url (redoc_url val) api_prefix ;;
        s <- expand_url (swagger_ui_oauth2_redirect_url val) api_prefix ;;
        Ok {| docs_enabled := docs_enabled val;
              openapi_url := o;
              docs_url := d;
              redoc_url := r;
              swagger_ui_oauth2_redirect_url := s |}
      else Ok val
  | None => Ok val
  end.

Definition _check_paths (val : PathsConfig) (info : ValidationInfo) : result PathsConfig :=
  match data_slug info with
  | Some api_slug =>
      tmp <- (if Str.contains (tmp_dir val) "{api_slug}"
              then Str.format (tmp_dir val) "api_slug" api_slug
              else Ok (tmp_dir val)) ;;
      uploads <- (if Str.contains (uploads_dir val) "{api_slug}"
                  then Str.format (uploads_dir val) "api_slug" api_slug
                  else if Str.contains (uploads_dir val) "{tmp_dir}"
                  then Str.format (uploads_dir val) "tmp_dir" tmp
                  else Ok (uploads_dir val)) ;;
      data <- (if Str.contains (data_dir val) "{api_slug}"
               then Str.format (data_dir val) "api_slug" api_slug
               else Ok (data_dir val)) ;;
      Ok {| tmp_dir := tmp; uploads_dir := uploads; data_dir := data |}
  | None => Ok val
  end.

(** ** The model and its validation *)

Section Model.

(** [DevConfig] and [SecurityConfig] are declared in [_dev.py] and
    [_security.py], which are not among the sources: they are parameters, and
    so is the one thing read from them, [security.ssl.enabled].  A security
    entry of the raw mapping is taken to be well formed, a mapping in which
    that flag can be read: an entry without [ssl] or [enabled], on which the
    lookup itself raises, has no counterpart here, and nothing below says
    that such a lookup cannot fail. *)
Context {DevConfig SecurityConfig : Type}.
Variable ssl_enabled : SecurityConfig -> bool.

(** [values]: the raw mapping handed to the model, a key being absent when
    its entry is [None]. *)
Record Values : Type := {
  raw_name : option string;
  raw_slug : option string;
  raw_http_scheme : option HTTPSchemeEnum;
  raw_bind_host : option string;
  raw_port : option Z;
  raw_version : option string;
  raw_prefix : option string;
  raw_gzip_min_size : option Z;
  raw_behind_proxy : option bool;
  raw_behind_cf_proxy : option bool;
  raw_dev : option DevConfig;
  raw_security : option SecurityConfig;
  raw_docs : option DocsConfig;
  raw_paths : option PathsConfig
}.

Record ApiConfig : Type := {
  name : string;
  slug : string;
  http_scheme : HTTPSchemeEnum;
  bind_host : string;
  port : Z;
  version : string;
  prefix : string;
  gzip_min_size : Z;
  behind_proxy : bool;
  behind_cf_proxy : bool;
  dev : DevConfig;
  security : SecurityConfig;
  docs : DocsConfig;
  paths : PathsConfig
}.

(** [values["http_scheme"] = x] *)
Definition set_http_scheme (values : Values) (x : HTTPSchemeEnum) : Values :=
  {| raw_name := raw_name values; raw_slug := raw_slug values;
     raw_http_scheme := Some x;
     raw_bind_host := raw_bind_host values; raw_port := raw_port values;
     raw_version := raw_version values; raw_prefix := raw_prefix values;
     raw_gzip_min_size := raw_gzip_min_size values;
     raw_behind_proxy := raw_behind_proxy values;
     raw_behind_cf_proxy := raw_behind_cf_proxy values;
     raw_dev := raw_dev values; raw_security := raw_security values;
     raw_docs := raw_docs values; raw_paths := raw_paths values |}.

(** [values["bind_host"] = x] *)
Definition set_bind_host (values : Values) (x : string) : Values :=
  {| raw_name := raw_name values; raw_slug := raw_slug values;
     raw_http_scheme := raw_http_scheme values;
     raw_bind_host := Some x; raw_port := raw_port values;
     raw_version := raw_version values; raw_prefix := raw_prefix values;
     raw_gzip_min_size := raw_gzip_min_size values;
     raw_behind_proxy := raw_behind_proxy values;
     raw_behind_cf_proxy := raw_behind_cf_proxy values;
     raw_dev := raw_dev values; raw_security := raw_security values;
     raw_docs := raw_docs values; raw_paths := raw_paths values |}.

(** [values["port"] = x] *)
Definition set_port (values : Values) (x : Z) : Values :=
  {| raw_name := raw_name values; raw_slug := raw_slug values;
     raw_http_scheme := raw_http_scheme values;
     raw_bind_host := raw_bind_host values; raw_port := Some x;
     raw_version := raw_version values; raw_prefix := raw_prefix values;
     raw_gzip_min_size := raw_gzip_min_size values;
     raw_behind_proxy := raw_behind_proxy values;
     raw_behind_cf_proxy := raw_behind_cf_proxy values;
     raw_dev := raw_dev values; raw_security := raw_security values;
     raw_docs := raw_docs values; raw_paths := raw_paths values |}.

(** *** [_check_args] *)

Definition is_launcher (program : string) : bool :=
  Str.endswith program "uvicorn"
  || Str.endswith program "fastapi"
  || Str.endswith program "gunicorn".

(** The body of [for _i, _arg in enumerate(sys.argv)], on the pair of
    [values] and [_has_host]. *)
Definition scan_arg (argv : list string) (_i : nat) (_arg : string)
    (st : Values * bool) : result (Values * bool) :=
  let st :=
    if Str.startswith _arg "--ssl"
    then (set_http_scheme (fst st) https, snd st) else st in
  st <- (if Str.startswith _arg "--host=" then
           h <- Str.item (Str.split "=" _arg) 1 ;;
           Ok (set_bind_host (fst st) h, true)
         else if String.eqb _arg "--host" && (_i + 1 <? List.length argv)%nat then
           h <- Str.item argv (_i + 1) ;;
           Ok (set_bind_host (fst st) h, true)
         else Ok st) ;;
  if Str.startswith _arg "--port=" then
    p <- Str.item (Str.split "=" _arg) 1 ;;
    n <- Str.int p ;;
    Ok (set_port (fst st) n, snd st)
  else if String.eqb _arg "--port" && (_i + 1 <? List.length argv)%nat then
    p <- Str.item argv (_i + 1) ;;
    n <- Str.int p ;;
    Ok (set_port (fst st) n, snd st)
  else Ok st.

Fixpoint scan (argv : list string) (_i : nat) (rest : list string)
    (st : Values * bool) : result (Values * bool) :=
  match rest with
  | [] => Ok st
  | _arg :: rest' =>
      st' <- scan_arg argv _i _arg st ;;
      scan argv (S _i) rest' st'
  end.

Definition _check_args (argv : list string) (values : Values) : result Values :=
  program <- Str.item argv 0 ;;
  if is_launcher program then
    st <- scan argv 0 argv (values, false) ;;
    if negb (snd st) then
      let values := set_bind_host (fst st) "127.0.0.1" in
      if Str.endswith program "fastapi" then
        a <- Str.item argv 1 ;;
        if String.eqb a "run" then Ok (set_bind_host values "0.0.0.0")
        else Ok values
      else Ok values
    else Ok (fst st)
  else
    match raw_security values with
    | None => Raise (KeyError "security")
    | Some sec =>
        if ssl_enabled sec then Ok (set_http_scheme values https) else Ok values
    end.

(** *** Field by field *)

(** What a field's validation leaves behind: a ValueError is recorded under
    the field's name and validation goes on; any other exception ends it. *)
Inductive status : Type :=
| Valid
| Invalid (loc : string)
| Abort (e : exn)
| Beyond.

Definition status_of {A : Type} (loc : string) (r : result A) : status :=
  match r with
  | Ok _ => Valid
  | Raise ValueError => Invalid loc
  | Raise e => Abort e
  | Unmodelled => Beyond
  end.

(** The exception of a validation in which some field failed. *)
Fixpoint failure {A : Type} (fields : list status) (invalid : list string)
  : result A :=
  match fields with
  | [] => Raise (ValidationError (rev invalid))
  | Valid :: fields' => failure fields' invalid
  | Invalid loc :: fields' => failure fields' (loc :: invalid)
  | Abort e :: _ => Raise e
  | Beyond :: _ => Unmodelled
  end.

Definition with_name (info : ValidationInfo) (r : result string) : ValidationInfo :=
  {| data_name := value r; data_slug := data_slug info;
     data_version := data_version info; data_prefix := data_prefix info |}.

Definition with_slug (info : ValidationInfo) (r : result string) : ValidationInfo :=
  {| data_name := data_name info; data_slug := value r;
     data_version := data_version info; data_prefix := data_prefix info |}.

Definition with_version (info : ValidationInfo) (r : result string) : ValidationInfo :=
  {| data_name := data_name info; data_slug := data_slug info;
     data_version := value r; data_prefix := data_prefix info |}.

Definition with_prefix (info : ValidationInfo) (r : result string) : ValidationInfo :=
  {| data_name := data_name info; data_slug := data_slug info;
     data_version := data_version info; data_prefix := value r |}.

(** A field's own validation: the constraints of its [Field(...)] first, its
    validator, if any, after them. *)
Definition str_field (min_length max_length : nat) (raw : option string)
  : result string :=
  v <- required raw ;; constr min_length max_length v.

Definition slug_field (raw : option string) (info : ValidationInfo) : result string :=
  v <- str_field 2 128 raw ;; _check_slug v info.

(** [http_scheme] is the one field with a default. *)
Definition http_scheme_field (raw : option HTTPSchemeEnum) : result HTTPSchemeEnum :=
  match raw with
  | Some x => Ok x
  | None => Ok http
  end.

Definition port_field (raw : option Z) : result Z :=
  v <- required raw ;; check_port v.

Definition prefix_field (raw : option string) (info : ValidationInfo) : result string :=
  v <- str_field 0 128 raw ;; _check_prefix v info.

Definition gzip_min_size_field (raw : option Z) : result Z :=
  v <- required raw ;; check_gzip_min_size v.

Definition docs_field (raw : option DocsConfig) (info : ValidationInfo)
  : result DocsConfig :=
  v <- required raw ;; _check_docs v info.

Definition paths_field (raw : option PathsConfig) (info : ValidationInfo)
  : result PathsConfig :=
  v <- required raw ;; _check_paths v info.

(** The fields in the order of their declaration; [info.data] holds the
    fields that were valid so far. *)
Definition validate_fields (values : Values) : result ApiConfig :=
  let f_name := str_field 2 128 (raw_name values) in
  let info := with_name no_data f_name in
  let f_slug := slug_field (raw_slug values) info in
  let info := with_slug info f_slug in
  let f_http_scheme := http_scheme_field (raw_http_scheme values) in
  let f_bind_host := str_field 2 128 (raw_bind_host values) in
  let f_port := port_field (raw_port values) in
  let f_version := str_field 1 16 (raw_version values) in
  let info := with_version info f_version in
  let f_prefix := prefix_field (raw_prefix values) info in
  let info := with_prefix info f_prefix in
  let f_gzip_min_size := gzip_min_size_field (raw_gzip_min_size values) in
  let f_behind_proxy := required (raw_behind_proxy values) in
  let f_behind_cf_proxy := required (raw_behind_cf_proxy values) in
  let f_dev := required (raw_dev values) in
  let f_security := required (raw_security values) in
  let f_docs := docs_field (raw_docs values) info in
  let f_paths := paths_field (raw_paths values) info in
  match f_name, f_slug, f_http_scheme, f_bind_host, f_port, f_version, f_prefix,
        f_gzip_min_size, f_behind_proxy, f_behind_cf_proxy, f_dev, f_security,
        f_docs, f_paths with
  | Ok a, Ok b, Ok c, Ok d, Ok e, Ok f, Ok g, Ok h, Ok i, Ok j, Ok k, Ok l, Ok m, Ok n =>
      Ok {| name := a; slug := b; http_scheme := c; bind_host := d; port := e;
            version := f; prefix := g; gzip_min_size := h; behind_proxy := i;
            behind_cf_proxy := j; dev := k; security := l; docs := m; paths := n |}
  | _, _, _, _, _, _, _, _, _, _, _, _, _, _ =>
      failure
        [status_of "name" f_name; status_of "slug" f_slug;
         status_of "http_scheme" f_http_scheme; status_of "bind_host" f_bind_host;
         status_of "port" f_port; status_of "version" f_version;
         status_of "prefix" f_prefix; status_of "gzip_min_size" f_gzip_min_size;
         status_of "behind_proxy" f_behind_proxy;
         status_of "behind_cf_proxy" f_behind_cf_proxy; status_of "dev" f_dev;
         status_of "security" f_security; status_of "docs" f_docs;
         status_of "paths" f_paths] []
  end.

(** Building an [ApiConfig] from [values] in a process started as [argv]: [_check_args] runs
    on the raw mapping (a ValueError of its [int()] is reported as a
    validation error of the model), then the fields are validated. *)
Definition model_validate (argv : list string) (values : Values) : result ApiConfig :=
  match _check_args argv values with
  | Ok values' => validate_fields values'
  | Raise ValueError => Raise (ValidationError [])
  | Raise e => Raise e
  | Unmodelled => Unmodelled
  end.

End Model.

(** The data a validator sees once the fields before it were valid. *)
Definition data_of (n s v p : option string) : ValidationInfo :=
  {| data_name := n; data_slug := s; data_version := v; data_prefix := p |}.

(** ** Templates

    A template written as literal text without braces and replacement fields
    with plain names: the strings on which the placeholder claims are stated. *)

Inductive segment : Type :=
| Lit (text : string)
| Field (name : string).

Definition render_segment (sg : segment) : string :=
  match sg with
  | Lit t => t
  | Field n => String "{" (n ++ "}")
  end.

Fixpoint render (segs : list segment) : string :=
  match segs with
  | [] => EmptyString
  | sg :: segs' => render_segment sg ++ render segs'
  end.

(** Every field replaced by [value], literal text kept. *)
Fixpoint expand (value : string) (segs : list segment) : string :=
  match segs with
  | [] => EmptyString
  | Lit t :: segs' => t ++ expand value segs'
  | Field _ :: segs' => value ++ expand value segs'
  end.

(** What [format] makes of the segments, field by field. *)
Fixpoint expand_fields (key value : string) (segs : list segment) : result string :=
  match segs with
  | [] => Ok EmptyString
  | Lit t :: segs' => fmap (String.append t) (expand_fields key value segs')
  | Field n :: segs' =>
      v <- Str.field_value key value n ;;
      fmap (String.append v) (expand_fields key value segs')
  end.

Definition no_open_brace (s : string) : bool :=
  Str.forallb (fun c => negb (Ascii.eqb c "{")) s.

Definition brace_free (s : string) : bool :=
  Str.forallb (fun c => negb (Ascii.eqb c "{" || Ascii.eqb c "}")) s.

(** A field name that ends at the closing brace, with nothing to look up
    inside. *)
Definition plain_name (n : string) : bool :=
  Str.forallb
    (fun c => negb (Ascii.eqb c "{" || Ascii.eqb c "}" || Ascii.eqb c "["
                    || Ascii.eqb c ":" || Ascii.eqb c "!")) n.

Definition well_formed (sg : segment) : bool :=
  match sg with
  | Lit t => brace_free t
  | Field n => plain_name n
  end.

(** A template whose fields are all the placeholder [key]. *)
Definition template_of (key : string) (sg : segment) : bool :=
  match sg with
  | Lit t => brace_free t
  | Field n => String.eqb n key
  end.

(** ** Launch flags, read off the argument vector

    What the scan of [_check_args] takes from [sys.argv], stated on the
    vector alone: the claims on launch arguments speak of these. *)

Definition is_ssl_flag (_arg : string) : bool := Str.startswith _arg "--ssl".

(** A host flag: [--host=VALUE], or [--host] with an element after it. *)
Definition is_host_flag (argv : list string) (_i : nat) (_arg : string) : bool :=
  Str.startswith _arg "--host="
  || (String.eqb _arg "--host" && (_i + 1 <? List.length argv)%nat).

(** A port flag: [--port=VALUE], or [--port] with an element after it. *)
Definition is_port_flag (argv : list string) (_i : nat) (_arg : string) : bool :=
  Str.startswith _arg "--port="
  || (String.eqb _arg "--port" && (_i + 1 <? List.length argv)%nat).

Definition host_of (argv : list string) (_i : nat) (_arg : string)
  : result (option string) :=
  if Str.startswith _arg "--host=" then
    fmap Some (Str.item (Str.split "=" _arg) 1)
  else if String.eqb _arg "--host" && (_i + 1 <? List.length argv)%nat then
    fmap Some (Str.item argv (_i + 1))
  else Ok None.

Definition port_of (argv : list string) (_i : nat) (_arg : string)
  : result (option Z) :=
  if Str.startswith _arg "--port=" then
    p <- Str.item (Str.split "=" _arg) 1 ;; n <- Str.int p ;; Ok (Some n)
  else if String.eqb _arg "--port" && (_i + 1 <? List.length argv)%nat then
    p <- Str.item argv (_i + 1) ;; n <- Str.int p ;; Ok (Some n)
  else Ok None.

Fixpoint existsb_from {A : Type} (p : nat -> A -> bool) (i : nat) (xs : list A)
  : bool :=
  match xs with
  | [] => false
  | x :: xs' => p i x || existsb_from p (S i) xs'
  end.

Fixpoint forallb_from {A : Type} (p : nat -> A -> bool) (i : nat) (xs : list A)
  : bool :=
  match xs with
  | [] => true
  | x :: xs' => p i x && forallb_from p (S i) xs'
  end.

Definition has_ssl_flag (argv : list string) : bool := existsb is_ssl_flag argv.

Definition has_host_flag (argv : list string) : bool :=
  existsb_from (is_host_flag argv) 0 argv.

(** Every port flag carries a value that [int()] accepts. *)
Definition ports_parse (argv : list string) : bool :=
  forallb_from
    (fun i a => match port_of argv i a with Ok _ => true | _ => false end)
    0 argv.

(** The settings one scan of the vector leaves in [values]: https or not,
    the last host, the last port. *)
Record override : Type := {
  o_https : bool;
  o_host : option string;
  o_port : option Z
}.

Definition no_override : override :=
  {| o_https := false; o_host := None; o_port := None |}.

Definition later {A : Type} (a b : option A) : option A :=
  match b with
  | Some _ => b
  | None => a
  end.

Definition merge (o1 o2 : override) : override :=
  {| o_https := o_https o1 || o_https o2;
     o_host := later (o_host o1) (o_host o2);
     o_port := later (o_port o1) (o_port o2) |}.

Definition arg_override (argv : list string) (_i : nat) (_arg : string)
  : result override :=
  h <- host_of argv _i _arg ;;
  p <- port_of argv _i _arg ;;
  Ok {| o_https := is_ssl_flag _arg; o_host := h; o_port := p |}.

Fixpoint scan_override (argv : list string) (_i : nat) (rest : list string)
  : result override :=
  match rest with
  | [] => Ok no_override
  | _arg :: rest' =>
      o <- arg_override argv _i _arg ;;
      o' <- scan_override argv (S _i) rest' ;;
      Ok (merge o o')
  end.

Section Override.

Context {DevConfig SecurityConfig : Type}.

Definition apply_override (o : override) (st : @Values DevConfig SecurityConfig * bool)
  : Values * bool :=
  let v := fst st in
  let v := if o_https o then set_http_scheme v https else v in
  let v := match o_host o with Some h => set_bind_host v h | None => v end in
  let v := match o_port o with Some p => set_port v p | None => v end in
  (v, snd st || match o_host o with Some _ => true | None => false end).

(** Entries other than the scheme, the host and the port pass through. *)
Definition same_settings (v w : (@Values DevConfig SecurityConfig)) : Prop :=
  raw_name w = raw_name v /\ raw_slug w = raw_slug v
  /\ raw_version w = raw_version v /\ raw_prefix w = raw_prefix v
  /\ raw_gzip_min_size w = raw_gzip_min_size v
  /\ raw_behind_proxy w = raw_behind_proxy v
  /\ raw_behind_cf_proxy w = raw_behind_cf_proxy v
  /\ raw_dev w = raw_dev v /\ raw_security w = raw_security v
  /\ raw_docs w = raw_docs v /\ raw_paths w = raw_paths v.


End Override.

(** ** Sample settings

    A raw mapping as a settings file would give it, and the configuration it
    resolves to; [security] is the TLS flag itself and [dev] carries nothing. *)

Definition tls_flag (sec : bool) : bool := sec.

Definition sample_docs : DocsConfig :=
  {| docs_enabled := true;
     openapi_url := Some "{api_prefix}/openapi.json";
     docs_url := Some "{api_prefix}/docs";
     redoc_url := None;
     swagger_ui_oauth2_redirect_url := Some "" |}.

Definition sample_paths : PathsConfig :=
  {| tmp_dir := "/var/tmp/{api_slug}";
     uploads_dir := "{tmp_dir}/uploads";
     data_dir := "/var/lib/{api_slug}" |}.

Definition sample_values (slug0 : option string)
    (scheme0 : option HTTPSchemeEnum) (tls : bool) : @Values unit bool :=
  {| raw_name := Some "My Cool API";
     raw_slug := slug0;
     raw_http_scheme := scheme0;
     raw_bind_host := Some "10.0.0.5";
     raw_port := Some 8000%Z;
     raw_version := Some "v2";
     raw_prefix := Some "/api/{api_version}";
     raw_gzip_min_size := Some 512%Z;
     raw_behind_proxy := Some false;
     raw_behind_cf_proxy := Some false;
     raw_dev := Some tt;
     raw_security := Some tls;
     raw_docs := Some sample_docs;
     raw_paths := Some sample_paths |}.

Definition sample_config (scheme : HTTPSchemeEnum) (host : string) (tls : bool)
  : @ApiConfig unit bool :=
  {| name := "My Cool API";
     slug := "acme";
     http_scheme := scheme;
     bind_host := host;
     port := 8000%Z;
     version := "v2";
     prefix := "/api/v2";
     gzip_min_size := 512%Z;
     behind_proxy := false;
     behind_cf_proxy := false;
     dev := tt;
     security := tls;
     docs := {| docs_enabled := true;
                openapi_url := Some "/api/v2/openapi.json";
                docs_url := Some "/api/v2/docs";
                redoc_url := None;
                swagger_ui_oauth2_redirect_url := Some "" |};
     paths := {| tmp_dir := "/var/tmp/acme";
                 uploads_dir := "/var/tmp/acme/uploads";
                 data_dir := "/var/lib/acme" |} |}.

(** A docs URL given as a template of the prefix placeholder, or not set. *)
Definition url_template (t : option (list segment)) : bool :=
  match t with
  | Some segs => forallb (template_of "api_prefix") segs
  | None => true
  end.

(** The four URLs of a [DocsConfig]. *)
Definition docs_urls : list (DocsConfig -> option string) :=
  [openapi_url; docs_url; redoc_url; swagger_ui_oauth2_redirect_url].

(** ** Worked examples *)

Example lower_ex : Str.lower "My Cool API" = "my cool api".
Proof. reflexivity. Qed.

Example strip_ex : Str.strip "  a b  " = "a b".
Proof. reflexivity. Qed.

Example split_ex : Str.split "=" "--host=a=b" = ["--host"; "a"; "b"].
Proof. reflexivity. Qed.

Example int_ex : Str.int " 9_000 " = Ok 9000%Z /\ Str.int "80x" = Raise ValueError.
Proof. split; reflexivity. Qed.

Example int_space_ex :
  Str.int (String (ascii_of_nat 28) "8000") = Raise ValueError
  /\ Str.int (String (ascii_of_nat 160) "8000") = Ok 8000%Z
  /\ Str.strip (String (ascii_of_nat 28) "8000") = "8000".
Proof. repeat split; reflexivity. Qed.

Example format_ex :
  Str.format "/api/{api_version}" "api_version" "v2" = Ok "/api/v2"
  /\ Str.format "{tmp_dir}/{api_slug}" "api_slug" "acme" = Raise (KeyError "tmp_dir")
  /\ Str.format "{{x}}{api_slug}" "api_slug" "acme" = Ok "{x}acme"
  /\ Str.format "{api_slug" "api_slug" "acme" = Raise ValueError.
Proof. repeat split; reflexivity. Qed.

Example check_paths_ex :
  _check_paths
    {| tmp_dir := "/var/tmp/{api_slug}"; uploads_dir := "{tmp_dir}/uploads";
       data_dir := "/var/lib/{api_slug}" |}
    {| data_name := None; data_slug := Some "acme"; data_version := None;
       data_prefix := None |}
  = Ok {| tmp_dir := "/var/tmp/acme"; uploads_dir := "/var/tmp/acme/uploads";
          data_dir := "/var/lib/acme" |}.
Proof. reflexivity. Qed.

(** ** Lemmas on strings *)

Lemma append_assoc' (a b c : string) : ((a ++ b) ++ c = a ++ (b ++ c))%string.
Proof. induction a as [|x a IH]; simpl; [reflexivity | now rewrite IH]. Qed.

Lemma append_empty_r (a : string) : (a ++ "")%string = a.
Proof. induction a as [|x a IH]; simpl; [reflexivity | now rewrite IH]. Qed.

Lemma forallb_append p (a b : string) :
  Str.forallb p (a ++ b) = Str.forallb p a && Str.forallb p b.
Proof.
  induction a as [|x a IH]; simpl; [reflexivity|].
  rewrite IH. now rewrite andb_assoc.
Qed.

Lemma forallb_impl (p q : ascii -> bool) (s : string) :
  (forall c, p c = true -> q c = true) ->
  Str.forallb p s = true -> Str.forallb q s = true.
Proof.
  intros Hpq. induction s as [|x s IH]; simpl; [reflexivity|].
  intros H. apply andb_true_iff in H as [H1 H2].
  now rewrite (Hpq _ H1), (IH H2).
Qed.

Lemma forallb_map (p q : ascii -> bool) (f : ascii -> ascii) (s : string) :
  (forall c, p c = true -> q (f c) = true) ->
  Str.forallb p s = true -> Str.forallb q (Str.map f s) = true.
Proof.
  intros Hf. induction s as [|x s IH]; simpl; [reflexivity|].
  intros H. apply andb_true_iff in H as [H1 H2].
  now rewrite (Hf _ H1), (IH H2).
Qed.

Lemma forallb_true (s : string) : Str.forallb (fun _ => true) s = true.
Proof. induction s as [|x s IH]; simpl; [reflexivity | exact IH]. Qed.

Lemma forallb_lstrip_by p sp (s : string) :
  Str.forallb p s = true -> Str.forallb p (Str.lstrip_by sp s) = true.
Proof.
  induction s as [|x s IH]; simpl; [reflexivity|].
  intros H. destruct (sp x); [|exact H].
  apply andb_true_iff in H as [_ H2]. now apply IH.
Qed.

Lemma forallb_rstrip_by p sp (s : string) :
  Str.forallb p s = true -> Str.forallb p (Str.rstrip_by sp s) = true.
Proof.
  induction s as [|x s IH]; simpl; [reflexivity|].
  intros H. apply andb_true_iff in H as [H1 H2]. specialize (IH H2).
  destruct (Str.rstrip_by sp s) as [|y r].
  - destruct (sp x); simpl; [reflexivity | now rewrite H1].
  - simpl in *. now rewrite H1, IH.
Qed.

Lemma forallb_strip_by p sp (s : string) :
  Str.forallb p s = true -> Str.forallb p (Str.strip_by sp s) = true.
Proof. intros H. now apply forallb_rstrip_by, forallb_lstrip_by. Qed.

Lemma lower_char_not_capital (c : ascii) :
  Str.is_ascii_capital (Str.lower_char c) = false.
Proof. destruct c as [[] [] [] [] [] [] [] []]; reflexivity. Qed.

Lemma startswith_append (p s : string) : Str.startswith (p ++ s) p = true.
Proof.
  induction p as [|x p IH]; simpl; [now destruct s|].
  now rewrite Ascii.eqb_refl, IH.
Qed.

Lemma contains_append_l (p s : string) : Str.contains (p ++ s) p = true.
Proof.
  destruct p as [|x p]; [now destruct s|].
  change (Str.contains (String x p ++ s) (String x p))
    with (Str.startswith (String x p ++ s) (String x p)
          || Str.contains (p ++ s) (String x p)).
  now rewrite startswith_append.
Qed.

Lemma contains_append_r (a b p : string) :
  Str.contains b p = true -> Str.contains (a ++ b) p = true.
Proof.
  intros H. induction a as [|x a IH]; simpl; [exact H|].
  rewrite IH. apply orb_true_r.
Qed.

Lemma contains_without_head (c : ascii) (p s : string) :
  Str.forallb (fun x => negb (Ascii.eqb x c)) s = true ->
  Str.contains s (String c p) = false.
Proof.
  induction s as [|x s IH]; simpl; [reflexivity|].
  intros H. apply andb_true_iff in H as [H1 H2].
  apply negb_true_iff in H1. rewrite H1. simpl. now apply IH.
Qed.

Lemma contains_skip (c : ascii) (p a b : string) :
  Str.forallb (fun x => negb (Ascii.eqb x c)) a = true ->
  Str.contains (a ++ b) (String c p) = Str.contains b (String c p).
Proof.
  induction a as [|x a IH]; simpl; [reflexivity|].
  intros H. apply andb_true_iff in H as [H1 H2].
  apply negb_true_iff in H1. rewrite H1. simpl. now apply IH.
Qed.

Lemma truthy_of_contains (s p : string) :
  Str.contains s p = true -> p <> EmptyString -> truthy s = true.
Proof.
  intros H Hp. destruct s as [|x s]; [|reflexivity].
  destruct p; [congruence | discriminate].
Qed.

(** ** [format] on templates *)

Lemma fmap_fmap {A B C : Type} (f : A -> B) (g : B -> C) (r : result A) :
  fmap g (fmap f r) = fmap (fun a => g (f a)) r.
Proof. now destruct r. Qed.

Lemma fmt_text_lit (key value t rest : string) :
  brace_free t = true ->
  Str.fmt_text key value (t ++ rest)
  = fmap (String.append t) (Str.fmt_text key value rest).
Proof.
  unfold brace_free. induction t as [|c t IH]; simpl.
  - intros _. now destruct (Str.fmt_text key value rest).
  - intros H. apply andb_true_iff in H as [Hc Ht].
    apply negb_true_iff, orb_false_iff in Hc as [Ho Hcl].
    rewrite Ho, Hcl, (IH Ht), fmap_fmap. reflexivity.
Qed.

Lemma fmt_field_name (key value n acc rest : string) :
  plain_name n = true ->
  Str.fmt_field key value acc (n ++ String "}" rest)
  = (v <- Str.field_value key value (acc ++ n) ;;
     fmap (String.append v) (Str.fmt_text key value rest)).
Proof.
  unfold plain_name. revert acc. induction n as [|c n IH]; intros acc; simpl.
  - intros _. now rewrite append_empty_r.
  - intros H. apply andb_true_iff in H as [Hc Hn].
    apply negb_true_iff in Hc.
    repeat (apply orb_false_iff in Hc as [Hc ?]).
    replace (Ascii.eqb c "}") with false by congruence.
    replace (Ascii.eqb c "{") with false by congruence.
    replace (Ascii.eqb c "[") with false by congruence.
    replace (Ascii.eqb c ":") with false by congruence.
    replace (Ascii.eqb c "!") with false by congruence.
    simpl. rewrite (IH _ Hn), append_assoc'. reflexivity.
Qed.

Lemma fmt_text_field (key value n rest : string) :
  plain_name n = true ->
  Str.fmt_text key value (String "{" (n ++ String "}" rest))
  = (v <- Str.field_value key value n ;;
     fmap (String.append v) (Str.fmt_text key value rest)).
Proof.
  intros Hn.
  pose proof (fmt_field_name key value n EmptyString rest Hn) as E.
  simpl in E. rewrite <- E. clear E.
  destruct n as [|c n]; [reflexivity|].
  simpl. unfold plain_name in Hn. simpl in Hn.
  apply andb_true_iff in Hn as [Hc _]. apply negb_true_iff in Hc.
  repeat (apply orb_false_iff in Hc as [Hc ?]).
  now rewrite Hc.
Qed.

Lemma format_render (key value : string) (segs : list segment) :
  forallb well_formed segs = true ->
  Str.format (render segs) key value = expand_fields key value segs.
Proof.
  unfold Str.format. induction segs as [|sg segs IH]; [reflexivity|].
  cbn [forallb]. intros H. apply andb_true_iff in H as [Hsg Hsegs].
  specialize (IH Hsegs).
  destruct sg as [t|n]; cbn [render render_segment expand_fields well_formed] in *.
  - now rewrite (fmt_text_lit _ _ _ _ Hsg), IH.
  - change (String "{" (n ++ "}") ++ render segs)%string
      with (String "{" ((n ++ "}") ++ render segs)).
    rewrite append_assoc'.
    change ("}" ++ render segs)%string with (String "}" (render segs)).
    now rewrite (fmt_text_field _ _ _ _ Hsg), IH.
Qed.

Lemma template_well_formed (key : string) (segs : list segment) :
  plain_name key = true ->
  forallb (template_of key) segs = true -> forallb well_formed segs = true.
Proof.
  intros Hk. induction segs as [|sg segs IH]; simpl; [reflexivity|].
  intros H. apply andb_true_iff in H as [Hsg Hsegs]. rewrite (IH Hsegs).
  destruct sg as [t|n]; simpl in *; [now rewrite Hsg|].
  apply String.eqb_eq in Hsg. subst n. now rewrite Hk.
Qed.

Lemma expand_fields_template (key value : string) (segs : list segment) :
  forallb (template_of key) segs = true ->
  expand_fields key value segs = Ok (expand value segs).
Proof.
  induction segs as [|sg segs IH]; simpl; [reflexivity|].
  intros H. apply andb_true_iff in H as [Hsg Hsegs]. specialize (IH Hsegs).
  destruct sg as [t|n]; simpl in *.
  - now rewrite IH.
  - unfold Str.field_value. rewrite Hsg. simpl. now rewrite IH.
Qed.

(** A template of [key] placeholders is expanded by substituting [value] for
    each of them. *)
Lemma format_template (key value : string) (segs : list segment) :
  plain_name key = true ->
  forallb (template_of key) segs = true ->
  Str.format (render segs) key value = Ok (expand value segs).
Proof.
  intros Hk H.
  rewrite format_render by now apply (template_well_formed key).
  now apply expand_fields_template.
Qed.

Lemma expand_no_open_brace (value : string) (segs : list segment) :
  no_open_brace value = true ->
  forallb well_formed segs = true ->
  no_open_brace (expand value segs) = true.
Proof.
  unfold no_open_brace. intros Hv.
  induction segs as [|sg segs IH]; simpl; [reflexivity|].
  intros H. apply andb_true_iff in H as [Hsg Hsegs]. specialize (IH Hsegs).
  destruct sg as [t|n]; rewrite forallb_append, IH, andb_true_r.
  - simpl in Hsg. revert Hsg. apply forallb_impl.
    intros c Hc. apply negb_true_iff, orb_false_iff in Hc as [Hc _].
    now rewrite Hc.
  - exact Hv.
Qed.

(** Without an occurrence of the placeholder a template of [key] has no
    field at all. *)
Lemma expand_without_token (key value : string) (segs : list segment) :
  forallb (template_of key) segs = true ->
  Str.contains (render segs) (String "{" (key ++ "}")) = false ->
  expand value segs = render segs.
Proof.
  induction segs as [|sg segs IH]; [reflexivity|].
  cbn [forallb render]. intros H Hc. apply andb_true_iff in H as [Hsg Hsegs].
  destruct sg as [t|n]; cbn [render_segment expand template_of] in *.
  - f_equal. apply IH; [exact Hsegs|].
    destruct (Str.contains (render segs) (String "{" (key ++ "}"))) eqn:E;
      [|reflexivity].
    now rewrite (contains_append_r t _ _ E) in Hc.
  - apply String.eqb_eq in Hsg. subst n. exfalso.
    now rewrite contains_append_l in Hc.
Qed.

Lemma plain_no_open_brace (n : string) :
  plain_name n = true -> no_open_brace n = true.
Proof.
  apply forallb_impl. intros c Hc. apply negb_true_iff in Hc.
  repeat (apply orb_false_iff in Hc as [Hc ?]). now rewrite Hc.
Qed.

Lemma brace_free_no_open_brace (t : string) :
  brace_free t = true -> no_open_brace t = true.
Proof.
  apply forallb_impl. intros c Hc. apply negb_true_iff in Hc.
  apply orb_false_iff in Hc as [Hc _]. now rewrite Hc.
Qed.

Lemma startswith_name (n k r : string) :
  plain_name n = true -> plain_name k = true ->
  Str.startswith (n ++ String "}" r) (k ++ "}") = true -> n = k.
Proof.
  unfold plain_name. revert k.
  induction n as [|c n IH]; intros [|d k];
    cbn [Str.startswith String.append Str.forallb]; intros Hn Hk H.
  - reflexivity.
  - apply andb_true_iff in Hk as [Hd _]. apply negb_true_iff in Hd.
    repeat (apply orb_false_iff in Hd as [Hd ?]).
    apply andb_true_iff in H as [H _]. rewrite Ascii.eqb_sym in H. congruence.
  - apply andb_true_iff in Hn as [Hc _]. apply negb_true_iff in Hc.
    repeat (apply orb_false_iff in Hc as [Hc ?]).
    apply andb_true_iff in H as [H _]. congruence.
  - apply andb_true_iff in Hn as [_ Hn]. apply andb_true_iff in Hk as [_ Hk].
    apply andb_true_iff in H as [Hcd H]. apply Ascii.eqb_eq in Hcd. subst d.
    f_equal. now apply IH.
Qed.

(** A template of [other] placeholders holds no [key] placeholder. *)
Lemma template_without_token (key other : string) (segs : list segment) :
  plain_name key = true -> plain_name other = true -> other <> key ->
  forallb (template_of other) segs = true ->
  Str.contains (render segs) (String "{" (key ++ "}")) = false.
Proof.
  intros Hk Ho Hne. induction segs as [|sg segs IH]; [reflexivity|].
  cbn [forallb render]. intros H. apply andb_true_iff in H as [Hsg Hsegs].
  specialize (IH Hsegs).
  destruct sg as [t|n]; cbn [render_segment template_of] in *.
  - rewrite contains_skip; [exact IH|].
    now apply brace_free_no_open_brace.
  - apply String.eqb_eq in Hsg. subst n.
    change (String "{" (other ++ "}") ++ render segs)%string
      with (String "{" ((other ++ "}") ++ render segs)).
    rewrite append_assoc'.
    change ("}" ++ render segs)%string with (String "}" (render segs)).
    cbn [Str.contains Str.startswith]. rewrite Ascii.eqb_refl. cbn [andb].
    destruct (Str.startswith (other ++ String "}" (render segs)) (key ++ "}")) eqn:E.
    + now apply startswith_name in E.
    + cbn [orb]. rewrite contains_skip by now apply plain_no_open_brace.
      cbn [Str.contains Str.startswith]. exact IH.
Qed.

(** ** The scan of [_check_args] as an override *)

Section OverrideLemmas.

Context {DevConfig SecurityConfig : Type}.
Let Values' := @Values DevConfig SecurityConfig.

Lemma scan_arg_override (argv : list string) (i : nat) (a : string)
    (st : Values' * bool) :
  scan_arg argv i a st
  = fmap (fun o => apply_override o st) (arg_override argv i a).
Proof.
  destruct st as [v h].
  unfold scan_arg, arg_override, host_of, port_of, apply_override, is_ssl_flag.
  destruct (Str.startswith a "--ssl"), (Str.startswith a "--host="),
    (Str.item (Str.split "=" a) 1),
    (String.eqb a "--host" && (i + 1 <? List.length argv)%nat),
    (Str.item argv (i + 1)), (Str.startswith a "--port="),
    (String.eqb a "--port" && (i + 1 <? List.length argv)%nat);
    cbn [bind fmap fst snd o_https o_host o_port];
    repeat match goal with
           | |- context [Str.int ?p] =>
               destruct (Str.int p); cbn [bind fmap fst snd o_https o_host o_port]
           end;
    rewrite ?orb_true_r, ?orb_false_r; reflexivity.
Qed.

Lemma apply_merge (o1 o2 : override) (st : Values' * bool) :
  apply_override o2 (apply_override o1 st) = apply_override (merge o1 o2) st.
Proof.
  destruct st as [v h], o1 as [s1 [h1|] [p1|]], o2 as [s2 [h2|] [p2|]];
    destruct s1, s2, h; reflexivity.
Qed.

Lemma apply_no_override (st : Values' * bool) : apply_override no_override st = st.
Proof. destruct st as [v h]. unfold apply_override. cbn. now rewrite orb_false_r. Qed.

Lemma scan_as_override (argv : list string) (rest : list string) (i : nat)
    (st : Values' * bool) :
  scan argv i rest st
  = fmap (fun o => apply_override o st) (scan_override argv i rest).
Proof.
  revert i st. induction rest as [|a rest IH]; intros i st; cbn [scan scan_override].
  - cbn. now rewrite apply_no_override.
  - rewrite scan_arg_override.
    destruct (arg_override argv i a) as [o| |]; cbn; try reflexivity.
    rewrite IH.
    destruct (scan_override argv (S i) rest) as [o'| |]; cbn; try reflexivity.
    now rewrite apply_merge.
Qed.

End OverrideLemmas.

(** ** Validation of the fields *)

Section ModelLemmas.

Context {DevConfig SecurityConfig : Type}.
Variable ssl_enabled : SecurityConfig -> bool.

Lemma failure_not_Ok {A : Type} (fields : list status) (invalid : list string)
    (c : A) :
  failure fields invalid <> Ok c.
Proof.
  revert invalid. induction fields as [|s fields IH]; intros invalid; cbn.
  - discriminate.
  - destruct s; try discriminate; apply IH.
Qed.

(** A validation that succeeds validated every field, each against the
    fields before it. *)
Lemma validate_fields_Ok (values : @Values DevConfig SecurityConfig)
    (cfg : ApiConfig) :
  validate_fields values = Ok cfg ->
  str_field 2 128 (raw_name values) = Ok (name cfg)
  /\ slug_field (raw_slug values) (data_of (Some (name cfg)) None None None)
     = Ok (slug cfg)
  /\ http_scheme_field (raw_http_scheme values) = Ok (http_scheme cfg)
  /\ str_field 2 128 (raw_bind_host values) = Ok (bind_host cfg)
  /\ port_field (raw_port values) = Ok (port cfg)
  /\ str_field 1 16 (raw_version values) = Ok (version cfg)
  /\ prefix_field (raw_prefix values)
       (data_of (Some (name cfg)) (Some (slug cfg)) (Some (version cfg)) None)
     = Ok (prefix cfg)
  /\ gzip_min_size_field (raw_gzip_min_size values) = Ok (gzip_min_size cfg)
  /\ raw_behind_proxy values = Some (behind_proxy cfg)
  /\ raw_behind_cf_proxy values = Some (behind_cf_proxy cfg)
  /\ raw_dev values = Some (dev cfg)
  /\ raw_security values = Some (security cfg)
  /\ docs_field (raw_docs values)
       (data_of (Some (name cfg)) (Some (slug cfg)) (Some (version cfg))
          (Some (prefix cfg)))
     = Ok (docs cfg)
  /\ paths_field (raw_paths values)
       (data_of (Some (name cfg)) (Some (slug cfg)) (Some (version cfg))
          (Some (prefix cfg)))
     = Ok (paths cfg).
Proof.
  unfold validate_fields. cbv zeta.
  destruct (str_field 2 128 (raw_name values)) as [a| |] eqn:Ea;
    try (intros H; now apply failure_not_Ok in H).
  cbn [with_name value no_data data_name data_slug data_version data_prefix].
  fold (data_of (Some a) None None None).
  destruct (slug_field (raw_slug values) _) as [b| |] eqn:Eb;
    try (intros H; now apply failure_not_Ok in H).
  destruct (http_scheme_field (raw_http_scheme values)) as [c| |] eqn:Ec;
    try (intros H; now apply failure_not_Ok in H).
  destruct (str_field 2 128 (raw_bind_host values)) as [d| |] eqn:Ed;
    try (intros H; now apply failure_not_Ok in H).
  destruct (port_field (raw_port values)) as [e| |] eqn:Ee;
    try (intros H; now apply failure_not_Ok in H).
  destruct (str_field 1 16 (raw_version values)) as [f| |] eqn:Ef;
    try (intros H; now apply failure_not_Ok in H).
  cbn [with_slug with_version value data_name data_slug data_version data_prefix].
  fold (data_of (Some a) (Some b) (Some f) None).
  destruct (prefix_field (raw_prefix values) _) as [g| |] eqn:Eg;
    try (intros H; now apply failure_not_Ok in H).
  destruct (gzip_min_size_field (raw_gzip_min_size values)) as [h| |] eqn:Eh;
    try (intros H; now apply failure_not_Ok in H).
  destruct (raw_behind_proxy values) as [i|] eqn:Ei;
    try (intros H; now apply failure_not_Ok in H).
  destruct (raw_behind_cf_proxy values) as [j|] eqn:Ej;
    try (intros H; now apply failure_not_Ok in H).
  destruct (raw_dev values) as [k|] eqn:Ek;
    try (intros H; now apply failure_not_Ok in H).
  destruct (raw_security values) as [l|] eqn:El;
    try (intros H; now apply failure_not_Ok in H).
  cbn [with_prefix value data_name data_slug data_version data_prefix required].
  fold (data_of (Some a) (Some b) (Some f) (Some g)).
  destruct (docs_field (raw_docs values) _) as [m| |] eqn:Em;
    try (intros H; now apply failure_not_Ok in H).
  destruct (paths_field (raw_paths values) _) as [n| |] eqn:En;
    try (intros H; now apply failure_not_Ok in H).
  intros H. injection H as <-. cbn. repeat split; assumption.
Qed.

End ModelLemmas.

(** ** [_check_args] *)

Lemma host_of_None (argv : list string) (i : nat) (a : string) :
  is_host_flag argv i a = false -> host_of argv i a = Ok None.
Proof.
  unfold is_host_flag, host_of. intros H.
  apply orb_false_iff in H as [H1 H2]. now rewrite H1, H2.
Qed.

Lemma host_of_Some (argv : list string) (i : nat) (a : string) (h : option string) :
  is_host_flag argv i a = true -> host_of argv i a = Ok h -> h <> None.
Proof.
  unfold is_host_flag, host_of. intros H.
  destruct (Str.startswith a "--host=").
  - destruct (Str.item (Str.split "=" a) 1); cbn; congruence.
  - rewrite orb_false_l in H. rewrite H.
    destruct (Str.item argv (i + 1)); cbn; congruence.
Qed.

Lemma scan_override_https (argv rest : list string) (i : nat) (o : override) :
  scan_override argv i rest = Ok o -> o_https o = existsb is_ssl_flag rest.
Proof.
  revert i o. induction rest as [|a rest IH]; intros i o; cbn [scan_override existsb].
  - intros H. now injection H as <-.
  - unfold arg_override.
    destruct (host_of argv i a) as [h| |]; cbn [bind]; try discriminate.
    destruct (port_of argv i a) as [p| |]; cbn [bind]; try discriminate.
    destruct (scan_override argv (S i) rest) as [o'| |] eqn:E; cbn [bind];
      try discriminate.
    intros H. injection H as <-. cbn. now rewrite (IH _ _ E).
Qed.

Lemma scan_override_host (argv rest : list string) (i : nat) (o : override) :
  scan_override argv i rest = Ok o ->
  (o_host o = None <-> existsb_from (is_host_flag argv) i rest = false).
Proof.
  revert i o. induction rest as [|a rest IH]; intros i o;
    cbn [scan_override existsb_from].
  - intros H. injection H as <-. now split.
  - unfold arg_override.
    destruct (host_of argv i a) as [h| |] eqn:Eh; cbn [bind]; try discriminate.
    destruct (port_of argv i a) as [p| |]; cbn [bind]; try discriminate.
    destruct (scan_override argv (S i) rest) as [o'| |] eqn:E; cbn [bind];
      try discriminate.
    intros H. injection H as <-. cbn [merge o_host].
    specialize (IH _ _ E). rewrite orb_false_iff.
    destruct (is_host_flag argv i a) eqn:Ef.
    + pose proof (host_of_Some _ _ _ _ Ef Eh) as Hh.
      split; [|intros [? _]; discriminate].
      destruct (o_host o'), h; cbn; congruence.
    + rewrite (host_of_None _ _ _ Ef) in Eh. injection Eh as <-.
      destruct (o_host o'); cbn in *.
      * split; [discriminate|]. intros [_ H]. apply IH in H. discriminate.
      * split; [|reflexivity]. intros _. split; [reflexivity | now apply IH].
Qed.

Lemma scan_override_total (argv rest : list string) (i : nat) :
  existsb_from (is_host_flag argv) i rest = false ->
  forallb_from
    (fun i a => match port_of argv i a with Ok _ => true | _ => false end)
    i rest = true ->
  exists o, scan_override argv i rest = Ok o.
Proof.
  revert i. induction rest as [|a rest IH]; intros i;
    cbn [scan_override existsb_from forallb_from].
  - intros _ _. now exists no_override.
  - intros Hh Hp. apply orb_false_iff in Hh as [Hh1 Hh2].
    apply andb_true_iff in Hp as [Hp1 Hp2].
    destruct (IH _ Hh2 Hp2) as [o' E].
    unfold arg_override. rewrite (host_of_None _ _ _ Hh1). cbn [bind].
    destruct (port_of argv i a) as [p| |]; try discriminate.
    cbn [bind]. rewrite E. cbn [bind]. eauto.
Qed.

Section ArgsLemmas.

Context {DevConfig SecurityConfig : Type}.
Variable ssl_enabled : SecurityConfig -> bool.
Let Values' := @Values DevConfig SecurityConfig.

Lemma check_args_other (program : string) (args : list string) (v : Values') :
  is_launcher program = false ->
  _check_args ssl_enabled (program :: args) v
  = match raw_security v with
    | None => Raise (KeyError "security")
    | Some sec =>
        if ssl_enabled sec then Ok (set_http_scheme v https) else Ok v
    end.
Proof. intros H. unfold _check_args. cbn [Str.item nth_error bind]. now rewrite H. Qed.

Lemma check_args_launcher (program : string) (args : list string) (v : Values') :
  is_launcher program = true ->
  _check_args ssl_enabled (program :: args) v
  = (o <- scan_override (program :: args) 0 (program :: args) ;;
     let w := fst (apply_override o (v, false)) in
     match o_host o with
     | Some _ => Ok w
     | None =>
         if Str.endswith program "fastapi" then
           a <- Str.item (program :: args) 1 ;;
           if String.eqb a "run"
           then Ok (set_bind_host (set_bind_host w "127.0.0.1") "0.0.0.0")
           else Ok (set_bind_host w "127.0.0.1")
         else Ok (set_bind_host w "127.0.0.1")
     end).
Proof.
  intros H. unfold _check_args. cbn [Str.item nth_error bind]. rewrite H.
  rewrite scan_as_override.
  destruct (scan_override (program :: args) 0 (program :: args)) as [o| |];
    cbn [fmap bind]; try reflexivity.
  unfold apply_override at 1. cbn [snd fst orb].
  destruct (o_host o); reflexivity.
Qed.

Lemma apply_override_settings (o : override) (v : Values') (h : bool) :
  same_settings v (fst (apply_override o (v, h))).
Proof.
  destruct o as [s [x|] [p|]]; destruct s; cbn; repeat split.
Qed.

Lemma apply_override_scheme (o : override) (v : Values') (h : bool) :
  raw_http_scheme (fst (apply_override o (v, h)))
  = if o_https o then Some https else raw_http_scheme v.
Proof. destruct o as [s [x|] [p|]]; destruct s; reflexivity. Qed.

Lemma check_args_settings (program : string) (args : list string) (v w : Values') :
  _check_args ssl_enabled (program :: args) v = Ok w -> same_settings v w.
Proof.
  destruct (is_launcher program) eqn:L.
  - rewrite (check_args_launcher _ _ _ L).
    destruct (scan_override (program :: args) 0 (program :: args)) as [o| |];
      cbn [bind]; try discriminate.
    pose proof (apply_override_settings o v false) as S. cbv zeta.
    destruct (o_host o).
    + intros H. now injection H as <-.
    + destruct (Str.endswith program "fastapi").
      * destruct (Str.item (program :: args) 1) as [a| |]; cbn [bind];
          try discriminate.
        destruct (String.eqb a "run"); intros H; injection H as <-; exact S.
      * intros H. injection H as <-. exact S.
  - rewrite (check_args_other _ _ _ L).
    destruct (raw_security v) as [sec|]; try discriminate.
    destruct (ssl_enabled sec); intros H; injection H as <-;
      cbn; repeat split.
Qed.

(** The scheme after [_check_args]: https when the trigger of the branch
    taken fired, the entry as it was otherwise. *)
Lemma check_args_scheme (program : string) (args : list string) (v w : Values') :
  _check_args ssl_enabled (program :: args) v = Ok w ->
  raw_http_scheme w
  = if (if is_launcher program then has_ssl_flag (program :: args)
        else match raw_security v with
             | Some sec => ssl_enabled sec
             | None => false
             end)
    then Some https else raw_http_scheme v.
Proof.
  destruct (is_launcher program) eqn:L.
  - rewrite (check_args_launcher _ _ _ L). unfold has_ssl_flag.
    destruct (scan_override (program :: args) 0 (program :: args)) as [o| |] eqn:E;
      cbn [bind]; try discriminate.
    rewrite <- (scan_override_https _ _ _ _ E).
    pose proof (apply_override_scheme o v false) as S. cbv zeta.
    destruct (o_host o).
    + intros H. now injection H as <-.
    + destruct (Str.endswith program "fastapi").
      * destruct (Str.item (program :: args) 1) as [a| |]; cbn [bind];
          try discriminate.
        destruct (String.eqb a "run"); intros H; injection H as <-; exact S.
      * intros H. injection H as <-. exact S.
  - rewrite (check_args_other _ _ _ L).
    destruct (raw_security v) as [sec|]; try discriminate.
    destruct (ssl_enabled sec); intros H; now injection H as <-.
Qed.

End ArgsLemmas.

(** ** The resolved scheme *)

Lemma model_validate_Ok {DevConfig SecurityConfig : Type}
    (ssl_enabled : SecurityConfig -> bool) (argv : list string)
    (values : @Values DevConfig SecurityConfig) (cfg : ApiConfig) :
  model_validate ssl_enabled argv values = Ok cfg ->
  exists values',
    _check_args ssl_enabled argv values = Ok values'
    /\ validate_fields values' = Ok cfg.
Proof.
  unfold model_validate.
  destruct (_check_args ssl_enabled argv values) as [w|e|]; try discriminate.
  - intros H. now exists w.
  - destruct e; discriminate.
Qed.

Lemma http_scheme_field_https (raw : option HTTPSchemeEnum) (x : HTTPSchemeEnum) :
  http_scheme_field raw = Ok x -> (x = https <-> raw = Some https).
Proof.
  destruct raw as [y|]; cbn; intros H; injection H as <-.
  - split; congruence.
  - split; discriminate.
Qed.

(** The resolved scheme is https exactly when the trigger of the branch
    [_check_args] took fired or the raw mapping said https already. *)
Lemma model_validate_scheme {DevConfig SecurityConfig : Type}
    (ssl_enabled : SecurityConfig -> bool) (program : string)
    (args : list string) (values : @Values DevConfig SecurityConfig)
    (cfg : ApiConfig) :
  model_validate ssl_enabled (program :: args) values = Ok cfg ->
  (http_scheme cfg = https <->
   (is_launcher program = true /\ has_ssl_flag (program :: args) = true)
   \/ (is_launcher program = false /\ ssl_enabled (security cfg) = true)
   \/ raw_http_scheme values = Some https).
Proof.
  intros H. apply model_validate_Ok in H as (w & Ha & Hf).
  pose proof (check_args_scheme _ _ _ _ _ Ha) as Hs.
  pose proof (check_args_settings _ _ _ _ _ Ha) as St.
  destruct St as (_ & _ & _ & _ & _ & _ & _ & _ & Hsec & _).
  apply validate_fields_Ok in Hf.
  destruct Hf as (_ & _ & Hsch & _ & _ & _ & _ & _ & _ & _ & _ & Hsec' & _).
  apply http_scheme_field_https in Hsch. rewrite Hsch, Hs. clear Hsch Hs.
  rewrite <- Hsec, Hsec'.
  destruct (is_launcher program).
  - destruct (has_ssl_flag (program :: args)).
    + split; [intros _; left; now split | reflexivity].
    + split; [intros H; now right; right | ].
      intros [[_ H]|[[H _]|H]]; [discriminate | discriminate | exact H].
  - destruct (ssl_enabled (security cfg)).
    + split; [intros _; right; left; now split | reflexivity].
    + split; [intros H; now right; right | ].
      intros [[H _]|[[_ H]|H]]; [discriminate | discriminate | exact H].
Qed.

(** C1, as amended.  The resolved scheme is https whenever the trigger of the
    branch [_check_args] takes fired: under a recognised launcher, an
    argument that begins with [--ssl]; under any other program, the security
    sub-config reporting TLS enabled; and also whenever the raw mapping set
    https itself.  Under a launcher the security setting is not consulted:
    without an argument that begins with [--ssl] the resolved scheme is the
    one of the raw mapping, http when it gives none, whether security reports
    TLS enabled or not. *)
Theorem C1_scheme_https_per_branch :
  forall {DevConfig SecurityConfig : Type} (ssl_enabled : SecurityConfig -> bool)
         (program : string) (args : list string)
         (values : @Values DevConfig SecurityConfig) (cfg : ApiConfig),
    model_validate ssl_enabled (program :: args) values = Ok cfg ->
    ((is_launcher program = true /\ has_ssl_flag (program :: args) = true)
     \/ (is_launcher program = false /\ ssl_enabled (security cfg) = true)
     \/ raw_http_scheme values = Some https ->
     http_scheme cfg = https)
    /\ (is_launcher program = true ->
        has_ssl_flag (program :: args) = false ->
        http_scheme cfg
        = match raw_http_scheme values with Some x => x | None => http end).
Proof.
  intros D S ssl_enabled program args values cfg H. split.
  - intros T. now apply (model_validate_scheme _ _ _ _ _ H).
  - intros L Hs. apply model_validate_Ok in H as (w & Ha & Hf).
    pose proof (check_args_scheme _ _ _ _ _ Ha) as E. rewrite L, Hs in E.
    apply validate_fields_Ok in Hf. destruct Hf as (_ & _ & Hsch & _).
    rewrite E in Hsch. unfold http_scheme_field in Hsch.
    destruct (raw_http_scheme values); now injection Hsch as <-.
Qed.

Lemma C1_scheme_https_per_branch_witness :
  (model_validate tls_flag ["uvicorn"; "--ssl-keyfile=k.pem"]
     (sample_values (Some "acme") None false)
   = Ok (sample_config https "127.0.0.1" false)
   /\ http_scheme (sample_config https "127.0.0.1" false) = https)
  /\ (model_validate tls_flag ["python"; "main.py"]
        (sample_values (Some "acme") None true)
      = Ok (sample_config https "10.0.0.5" true)
      /\ http_scheme (sample_config https "10.0.0.5" true) = https)
  /\ (model_validate tls_flag ["uvicorn"; "main:app"]
        (sample_values (Some "acme") None true)
      = Ok (sample_config http "127.0.0.1" true)
      /\ tls_flag (security (sample_config http "127.0.0.1" true)) = true
      /\ http_scheme (sample_config http "127.0.0.1" true) = http).
Proof.
  assert (model_validate tls_flag ["uvicorn"; "--ssl-keyfile=k.pem"]
            (sample_values (Some "acme") None false)
          = Ok (sample_config https "127.0.0.1" false)) as H1
    by (vm_compute; reflexivity).
  assert (model_validate tls_flag ["python"; "main.py"]
            (sample_values (Some "acme") None true)
          = Ok (sample_config https "10.0.0.5" true)) as H2
    by (vm_compute; reflexivity).
  assert (model_validate tls_flag ["uvicorn"; "main:app"]
            (sample_values (Some "acme") None true)
          = Ok (sample_config http "127.0.0.1" true)) as H3
    by (vm_compute; reflexivity).
  split; [|split]; (split; [assumption|]).
  - apply (proj1 (C1_scheme_https_per_branch tls_flag _ _ _ _ H1)).
    left. split; vm_compute; reflexivity.
  - apply (proj1 (C1_scheme_https_per_branch tls_flag _ _ _ _ H2)).
    right. left. split; vm_compute; reflexivity.
  - split; [reflexivity|].
    exact (proj2 (C1_scheme_https_per_branch tls_flag _ _ _ _ H3)
             eq_refl eq_refl).
Defined.

(** C1 as stated fails: under uvicorn, with TLS enabled in the security
    sub-config and no [--ssl] argument, the resolved scheme is http. *)
Lemma C1_launcher_ignores_security :
  is_launcher "uvicorn" = true
  /\ model_validate tls_flag ["uvicorn"] (sample_values (Some "acme") None true)
     = Ok (sample_config http "127.0.0.1" true)
  /\ tls_flag (security (sample_config http "127.0.0.1" true)) = true
  /\ http_scheme (sample_config http "127.0.0.1" true) = http.
Proof. repeat split; vm_compute; reflexivity. Qed.

(** C6, as amended.  Under a program that is not a recognised launcher the
    resolved scheme is https if and only if the security sub-config reports
    TLS enabled or the raw mapping set https itself; [_check_args] leaves
    [bind_host] and [port] as the raw mapping has them, and the resolved
    values are those (the host with surrounding white space removed). *)
Theorem C6_other_program :
  forall {DevConfig SecurityConfig : Type} (ssl_enabled : SecurityConfig -> bool)
         (program : string) (args : list string)
         (values : @Values DevConfig SecurityConfig) (cfg : ApiConfig),
    is_launcher program = false ->
    model_validate ssl_enabled (program :: args) values = Ok cfg ->
    (http_scheme cfg = https <->
     ssl_enabled (security cfg) = true \/ raw_http_scheme values = Some https)
    /\ (exists values',
          _check_args ssl_enabled (program :: args) values = Ok values'
          /\ raw_bind_host values' = raw_bind_host values
          /\ raw_port values' = raw_port values)
    /\ str_field 2 128 (raw_bind_host values) = Ok (bind_host cfg)
    /\ raw_port values = Some (port cfg).
Proof.
  intros D S ssl_enabled program args values cfg L H.
  pose proof (model_validate_scheme _ _ _ _ _ H) as Hs.
  apply model_validate_Ok in H as (w & Ha & Hf).
  assert (raw_bind_host w = raw_bind_host values
          /\ raw_port w = raw_port values) as [Hb Hp].
  { rewrite (check_args_other _ _ _ _ L) in Ha.
    destruct (raw_security values) as [sec|]; try discriminate.
    destruct (ssl_enabled sec); injection Ha as <-; now split. }
  apply validate_fields_Ok in Hf.
  destruct Hf as (_ & _ & _ & Hhost & Hport & _).
  split; [|split; [|split]].
  - rewrite Hs, L. split.
    + intros [[H _]|[[_ H]|H]]; [discriminate | now left | now right].
    + intros [H|H]; [right; left; now split | now right; right].
  - exists w. now repeat split.
  - now rewrite <- Hb.
  - rewrite <- Hp. unfold port_field, required in Hport.
    destruct (raw_port w) as [p|]; try discriminate. cbn in Hport.
    unfold check_port in Hport.
    destruct ((80 <=? p)%Z && (p <? 65536)%Z); try discriminate.
    now injection Hport as <-.
Qed.

Lemma C6_other_program_witness :
  (http_scheme (sample_config https "10.0.0.5" true) = https <->
   tls_flag (security (sample_config https "10.0.0.5" true)) = true
   \/ raw_http_scheme (sample_values (Some "acme") None true) = Some https)
  /\ bind_host (sample_config https "10.0.0.5" true) = "10.0.0.5"
  /\ port (sample_config https "10.0.0.5" true) = 8000%Z.
Proof.
  destruct (C6_other_program tls_flag "python" ["main.py"; "--host"; "0.0.0.0"]
              (sample_values (Some "acme") None true)
              (sample_config https "10.0.0.5" true)) as (H & _ & _ & _).
  - vm_compute. reflexivity.
  - vm_compute. reflexivity.
  - split; [exact H | split; reflexivity].
Defined.

(** C6 as stated fails: with TLS disabled and https set in the raw mapping,
    the resolved scheme under a plain interpreter is https. *)
Lemma C6_https_without_tls :
  is_launcher "python" = false
  /\ model_validate tls_flag ["python"; "main.py"]
       (sample_values (Some "acme") (Some https) false)
     = Ok (sample_config https "10.0.0.5" false)
  /\ tls_flag (security (sample_config https "10.0.0.5" false)) = false
  /\ http_scheme (sample_config https "10.0.0.5" false) = https.
Proof. repeat split; vm_compute; reflexivity. Qed.

(** ** The port bound *)

(** C2, as amended.  Port validation accepts a raw integer if and only if it
    lies in [80, 65536): 79 and 65536 fail, 8080 and 65535 succeed. *)
Theorem C2_port_range :
  (forall p : Z, check_port p = Ok p <-> (80 <= p < 65536)%Z)
  /\ (forall p : Z, check_port p = Raise ValueError <-> ~ (80 <= p < 65536)%Z)
  /\ port_field (Some 79%Z) = Raise ValueError
  /\ port_field (Some 65536%Z) = Raise ValueError
  /\ port_field (Some 8080%Z) = Ok 8080%Z
  /\ port_field (Some 65535%Z) = Ok 65535%Z.
Proof.
  split; [|split; [|repeat split]].
  - intros p. unfold check_port.
    destruct ((80 <=? p)%Z && (p <? 65536)%Z) eqn:E.
    + apply andb_true_iff in E as [E1 E2]. split; [intros _; lia | reflexivity].
    + apply andb_false_iff in E. split; [discriminate | lia].
  - intros p. unfold check_port.
    destruct ((80 <=? p)%Z && (p <? 65536)%Z) eqn:E.
    + apply andb_true_iff in E as [E1 E2]. split; [discriminate | lia].
    + apply andb_false_iff in E. split; [lia | reflexivity].
Qed.

(** C2 as stated fails: 65535 lies outside [80, 65535) and is accepted. *)
Lemma C2_port_65535_accepted :
  check_port 65535 = Ok 65535%Z /\ port_field (Some 65535%Z) = Ok 65535%Z.
Proof. split; reflexivity. Qed.

(** ** The default bind host *)

(** C5: a program named fastapi started without any argument.  The scan
    finds no host flag, the loopback default is written, and the test for the
    [run] sub-command then reads [sys.argv[1]], which does not exist. *)
Theorem C5_fastapi_without_arguments :
  forall {DevConfig SecurityConfig : Type} (ssl_enabled : SecurityConfig -> bool)
         (values : @Values DevConfig SecurityConfig),
    is_launcher "fastapi" = true
    /\ has_host_flag ["fastapi"] = false
    /\ _check_args ssl_enabled ["fastapi"] values = Raise IndexError
    /\ _check_args ssl_enabled ["/usr/local/bin/fastapi"] values = Raise IndexError
    /\ _check_args ssl_enabled ["serve_fastapi"] values = Raise IndexError
    /\ model_validate ssl_enabled ["fastapi"] values = Raise IndexError.
Proof. intros D S ssl_enabled values. repeat split. Qed.

(** C9, as amended.  Under a recognised launcher, for an argument vector
    without host flag whose port flags all carry integers and which, when the
    program is fastapi, has an argument after the program name,
    [_check_args] completes and leaves [bind_host] at the loopback address,
    or at the wildcard address when the program is fastapi and its first
    argument is [run]; a configuration resolved from it has that host. *)
Theorem C9_default_bind_host :
  forall {DevConfig SecurityConfig : Type} (ssl_enabled : SecurityConfig -> bool)
         (program : string) (args : list string)
         (values : @Values DevConfig SecurityConfig),
    is_launcher program = true ->
    has_host_flag (program :: args) = false ->
    ports_parse (program :: args) = true ->
    (Str.endswith program "fastapi" = true -> args <> []) ->
    let host :=
      if Str.endswith program "fastapi" && String.eqb (hd EmptyString args) "run"
      then "0.0.0.0" else "127.0.0.1" in
    (exists values',
        _check_args ssl_enabled (program :: args) values = Ok values'
        /\ raw_bind_host values' = Some host)
    /\ (forall cfg,
           model_validate ssl_enabled (program :: args) values = Ok cfg ->
           bind_host cfg = host).
Proof.
  intros D S ssl_enabled program args values L Hh Hp Hrun host.
  assert (exists values',
             _check_args ssl_enabled (program :: args) values = Ok values'
             /\ raw_bind_host values' = Some host) as (w & Ha & Hb).
  { rewrite (check_args_launcher _ _ _ _ L).
    destruct (scan_override_total _ _ _ Hh Hp) as [o Eo].
    rewrite Eo. cbn [bind]. cbv zeta.
    apply (scan_override_host _ _ _ _ Eo) in Hh. rewrite Hh.
    subst host. destruct (Str.endswith program "fastapi").
    - destruct args as [|a args]; [now destruct Hrun|].
      cbn [Str.item nth_error bind hd andb].
      destruct (String.eqb a "run"); eexists; split; reflexivity.
    - eexists; split; reflexivity. }
  split; [now exists w|].
  intros cfg H. apply model_validate_Ok in H as (w' & Ha' & Hf).
  rewrite Ha in Ha'. injection Ha' as <-.
  apply validate_fields_Ok in Hf. destruct Hf as (_ & _ & _ & Hhost & _).
  rewrite Hb in Hhost. subst host.
  destruct (Str.endswith program "fastapi" && String.eqb (hd EmptyString args) "run");
    [ change (Ok "0.0.0.0" = Ok (bind_host cfg)) in Hhost
    | change (Ok "127.0.0.1" = Ok (bind_host cfg)) in Hhost ];
    now injection Hhost as <-.
Qed.

Lemma C9_default_bind_host_witness :
  (exists values',
      _check_args tls_flag ["uvicorn"] (sample_values (Some "acme") None false)
      = Ok values'
      /\ raw_bind_host values' = Some "127.0.0.1")
  /\ (exists values',
         _check_args tls_flag ["fastapi"; "run"] (sample_values (Some "acme") None false)
         = Ok values'
         /\ raw_bind_host values' = Some "0.0.0.0")
  /\ (exists values',
         _check_args tls_flag ["fastapi"; "dev"; "--port"; "9000"]
           (sample_values (Some "acme") None false)
         = Ok values'
         /\ raw_bind_host values' = Some "127.0.0.1").
Proof.
  split; [|split].
  - apply (C9_default_bind_host tls_flag "uvicorn" []); try reflexivity.
    discriminate.
  - apply (C9_default_bind_host tls_flag "fastapi" ["run"]); try reflexivity.
    discriminate.
  - apply (C9_default_bind_host tls_flag "fastapi" ["dev"; "--port"; "9000"]);
      try reflexivity.
    discriminate.
Defined.

(** C9 as stated fails: under uvicorn, without host flag, a port flag that
    carries no integer ends [_check_args] with a ValueError, and no host is
    defaulted. *)
Lemma C9_malformed_port_stops_default :
  is_launcher "uvicorn" = true
  /\ has_host_flag ["uvicorn"; "--port=80a"] = false
  /\ _check_args tls_flag ["uvicorn"; "--port=80a"]
       (sample_values (Some "acme") None false)
     = Raise ValueError
  /\ model_validate tls_flag ["uvicorn"; "--port=80a"]
       (sample_values (Some "acme") None false)
     = Raise (ValidationError []).
Proof. repeat split. Qed.

(** ** Placeholders in the paths *)

Lemma expand_if_template (key value : string) (segs : list segment) :
  plain_name key = true ->
  forallb (template_of key) segs = true ->
  (if Str.contains (render segs) (String "{" (key ++ "}"))
   then Str.format (render segs) key value
   else Ok (render segs))
  = Ok (expand value segs).
Proof.
  intros Hk Ht.
  destruct (Str.contains (render segs) (String "{" (key ++ "}"))) eqn:E.
  - now apply format_template.
  - now rewrite (expand_without_token key value segs Ht E).
Qed.

(** C7.  With the slug resolved, [_check_paths] expands the temp-dir first
    and the uploads-dir after it, the temp-dir placeholder of the uploads-dir
    standing for the temp-dir as already expanded; a directory without
    placeholder is left as it is.  On templates of literal text and
    placeholders the result is given in full, the spec's example being one
    instance. *)
Theorem C7_paths_expansion :
  (forall (api_slug : string) (info : ValidationInfo) (t u d : list segment),
      data_slug info = Some api_slug ->
      forallb (template_of "api_slug") t = true ->
      forallb (template_of "tmp_dir") u = true ->
      forallb (template_of "api_slug") d = true ->
      _check_paths
        {| tmp_dir := render t; uploads_dir := render u; data_dir := render d |}
        info
      = Ok {| tmp_dir := expand api_slug t;
              uploads_dir := expand (expand api_slug t) u;
              data_dir := expand api_slug d |})
  /\ (forall (api_slug : string) (val val' : PathsConfig) (info : ValidationInfo),
         data_slug info = Some api_slug ->
         _check_paths val info = Ok val' ->
         (Str.contains (tmp_dir val) "{api_slug}" = false ->
          tmp_dir val' = tmp_dir val)
         /\ (Str.contains (uploads_dir val) "{api_slug}" = false ->
             Str.contains (uploads_dir val) "{tmp_dir}" = false ->
             uploads_dir val' = uploads_dir val)
         /\ (Str.contains (uploads_dir val) "{api_slug}" = false ->
             Str.contains (uploads_dir val) "{tmp_dir}" = true ->
             Str.format (uploads_dir val) "tmp_dir" (tmp_dir val')
             = Ok (uploads_dir val'))
         /\ (Str.contains (data_dir val) "{api_slug}" = false ->
             data_dir val' = data_dir val)).
Proof.
  split.
  - intros api_slug info t u d Hs Ht Hu Hd.
    unfold _check_paths. rewrite Hs.
    cbn [tmp_dir uploads_dir data_dir].
    pose proof (expand_if_template "api_slug" api_slug t eq_refl Ht) as Et.
    pose proof (expand_if_template "api_slug" api_slug d eq_refl Hd) as Ed.
    pose proof (expand_if_template "tmp_dir" (expand api_slug t) u eq_refl Hu) as Eu.
    assert (Str.contains (render u) "{api_slug}" = false) as En
      by (apply (template_without_token "api_slug" "tmp_dir");
          [reflexivity | reflexivity | discriminate | exact Hu]).
    cbn [String.append] in Et, Ed, Eu.
    rewrite Et. cbn [bind]. rewrite En, Eu. cbn [bind]. rewrite Ed.
    reflexivity.
  - intros api_slug val val' info Hs. unfold _check_paths. rewrite Hs.
    destruct (Str.contains (tmp_dir val) "{api_slug}") eqn:Et;
      [ destruct (Str.format (tmp_dir val) "api_slug" api_slug) as [tmp| |]
      | set (tmp := tmp_dir val) ];
      cbn [bind]; try discriminate.
    all: destruct (Str.contains (uploads_dir val) "{api_slug}") eqn:Eu;
      [ destruct (Str.format (uploads_dir val) "api_slug" api_slug) as [up| |]
      | destruct (Str.contains (uploads_dir val) "{tmp_dir}") eqn:Eu';
        [ destruct (Str.format (uploads_dir val) "tmp_dir" tmp) as [up| |] eqn:Ef
        | ] ];
      cbn [bind]; try discriminate.
    all: destruct (Str.contains (data_dir val) "{api_slug}") eqn:Ed;
      [ destruct (Str.format (data_dir val) "api_slug" api_slug) as [da| |] | ];
      cbn [bind]; try discriminate.
    all: intros H; injection H as <-; cbn; repeat split;
      intros; try discriminate; try reflexivity; assumption.
Qed.

Lemma C7_paths_expansion_witness :
  _check_paths
    {| tmp_dir := "/var/tmp/{api_slug}"; uploads_dir := "{tmp_dir}/uploads";
       data_dir := "/srv/data" |}
    (data_of None (Some "acme") None None)
  = Ok {| tmp_dir := "/var/tmp/acme"; uploads_dir := "/var/tmp/acme/uploads";
          data_dir := "/srv/data" |}.
Proof.
  exact (proj1 C7_paths_expansion "acme" (data_of None (Some "acme") None None)
           [Lit "/var/tmp/"; Field "api_slug"] [Field "tmp_dir"; Lit "/uploads"]
           [Lit "/srv/data"] eq_refl eq_refl eq_refl eq_refl).
Defined.

(** C3: an uploads-dir that holds both placeholders.  The slug branch is
    taken, and [format], given the slug alone, finds no value for the
    temp-dir field. *)
Theorem C3_both_placeholders_raise :
  Str.contains "{tmp_dir}/{api_slug}/uploads" "{api_slug}" = true
  /\ Str.contains "{tmp_dir}/{api_slug}/uploads" "{tmp_dir}" = true
  /\ _check_paths
       {| tmp_dir := "/var/tmp/{api_slug}";
          uploads_dir := "{tmp_dir}/{api_slug}/uploads";
          data_dir := "/srv/data" |}
       (data_of None (Some "acme") None None)
     = Raise (KeyError "tmp_dir")
  /\ _check_paths
       {| tmp_dir := "/var/tmp";
          uploads_dir := "/srv/{api_slug}/{tmp_dir}";
          data_dir := "/srv/data" |}
       (data_of None (Some "acme") None None)
     = Raise (KeyError "tmp_dir").
Proof. repeat split. Qed.

(** A template of literal text and of the two placeholders, the temp-dir
    one among them: formatted with the slug alone it raises for the temp-dir
    field, whatever the literal text. *)
Lemma format_both_placeholders (api_slug : string) (segs : list segment) :
  forallb
    (fun sg => template_of "api_slug" sg || template_of "tmp_dir" sg) segs = true ->
  forallb (template_of "api_slug") segs = false ->
  Str.format (render segs) "api_slug" api_slug = Raise (KeyError "tmp_dir").
Proof.
  intros Hall Hsome.
  rewrite format_render.
  - induction segs as [|sg segs IH]; [discriminate|].
    cbn [forallb] in Hall, Hsome. apply andb_true_iff in Hall as [Hsg Hall].
    destruct sg as [t|n]; cbn [expand_fields].
    + cbn [template_of] in Hsg, Hsome. rewrite orb_diag in Hsg.
      rewrite Hsg in Hsome. cbn [andb] in Hsome. now rewrite (IH Hall Hsome).
    + cbn [template_of] in Hsg, Hsome.
      destruct (String.eqb n "api_slug") eqn:E.
      * apply String.eqb_eq in E. subst n. cbn [andb] in Hsome.
        now rewrite (IH Hall Hsome).
      * cbn [orb] in Hsg. apply String.eqb_eq in Hsg. now subst n.
  - clear Hsome. induction segs as [|sg segs IH]; [reflexivity|].
    cbn [forallb] in *. apply andb_true_iff in Hall as [Hsg Hall].
    rewrite (IH Hall), andb_true_r.
    destruct sg as [t|n]; cbn [template_of well_formed] in *.
    + now rewrite orb_diag in Hsg.
    + apply orb_true_iff in Hsg as [E|E]; apply String.eqb_eq in E; now subst n.
Qed.

Lemma format_both_placeholders_witness :
  Str.format "{tmp_dir}/{api_slug}/uploads" "api_slug" "acme"
  = Raise (KeyError "tmp_dir").
Proof.
  exact (format_both_placeholders "acme"
           [Field "tmp_dir"; Lit "/"; Field "api_slug"; Lit "/uploads"]
           eq_refl eq_refl).
Defined.

(** ** The slug *)

Lemma replace_removes (old new : ascii) (s : string) :
  old <> new ->
  Str.forallb (fun c => negb (Ascii.eqb c old)) (Str.replace old new s) = true.
Proof.
  intros Hne. unfold Str.replace.
  apply (forallb_map (fun _ => true)); [|apply forallb_true].
  intros c _. destruct (Ascii.eqb c old) eqn:E.
  - apply negb_true_iff, Ascii.eqb_neq. congruence.
  - now rewrite E.
Qed.

Lemma replace_keeps (p : ascii -> bool) (old new : ascii) (s : string) :
  p new = true ->
  Str.forallb p s = true -> Str.forallb p (Str.replace old new s) = true.
Proof.
  intros Hn. unfold Str.replace. apply forallb_map.
  intros c Hc. now destruct (Ascii.eqb c old).
Qed.

(** What [_check_slug] derives from a name: no space, underscore or dot, and
    no capital letter of ASCII. *)
Lemma check_slug_derived (name0 : string) (info : ValidationInfo) (out : string) :
  data_name info = Some name0 ->
  _check_slug EmptyString info = Ok out ->
  out = Str.replace "." "-"
          (Str.replace "_" "-" (Str.replace " " "-" (Str.strip (Str.lower name0))))
  /\ Str.forallb
       (fun c => negb (Ascii.eqb c " ") && negb (Ascii.eqb c "_")
                 && negb (Ascii.eqb c ".") && negb (Str.is_ascii_capital c)) out = true.
Proof.
  intros Hn. unfold _check_slug. rewrite Hn. cbn [truthy String.eqb negb].
  intros H. injection H as <-. split; [reflexivity|].
  set (a := Str.strip (Str.lower name0)).
  assert (Str.forallb (fun c => negb (Str.is_ascii_capital c)) a = true) as Ha.
  { apply forallb_strip_by. unfold Str.lower.
    apply (forallb_map (fun _ => true)); [|apply forallb_true].
    intros c _. now rewrite lower_char_not_capital. }
  set (b := Str.replace " " "-" a).
  assert (Str.forallb (fun c => negb (Ascii.eqb c " ") && negb (Str.is_ascii_capital c)) b
          = true) as Hb.
  { pose proof (replace_removes " " "-" a ltac:(discriminate)) as H1.
    pose proof (replace_keeps _ " " "-" a eq_refl Ha) as H2.
    fold b in H1, H2. clearbody b. clear - H1 H2.
    induction b as [|c b IH]; [reflexivity|]. cbn in *.
    apply andb_true_iff in H1 as [-> H1]. apply andb_true_iff in H2 as [-> H2].
    now rewrite IH. }
  set (c := Str.replace "_" "-" b).
  assert (Str.forallb
            (fun x => negb (Ascii.eqb x " ") && negb (Ascii.eqb x "_")
                      && negb (Str.is_ascii_capital x)) c = true) as Hc.
  { pose proof (replace_removes "_" "-" b ltac:(discriminate)) as H1.
    pose proof (replace_keeps _ "_" "-" b eq_refl Hb) as H2.
    fold c in H1, H2. clearbody c. clear - H1 H2.
    induction c as [|x c IH]; [reflexivity|]. cbn in *.
    apply andb_true_iff in H1 as [-> H1]. apply andb_true_iff in H2 as [H3 H2].
    apply andb_true_iff in H3 as [-> ->]. now rewrite IH. }
  pose proof (replace_removes "." "-" c ltac:(discriminate)) as H1.
  pose proof (replace_keeps _ "." "-" c eq_refl Hc) as H2.
  set (d := Str.replace "." "-" c) in *. clearbody d. clear - H1 H2.
  induction d as [|x d IH]; [reflexivity|]. cbn in *.
  apply andb_true_iff in H1 as [-> H1]. apply andb_true_iff in H2 as [H3 H2].
  apply andb_true_iff in H3 as [H3 ->]. apply andb_true_iff in H3 as [-> ->].
  now rewrite IH.
Qed.

Lemma check_slug_derived_witness :
  _check_slug EmptyString (data_of (Some " My_Cool API.v2 ") None None None)
  = Ok "my-cool-api-v2"
  /\ Str.forallb
       (fun c => negb (Ascii.eqb c " ") && negb (Ascii.eqb c "_")
                 && negb (Ascii.eqb c ".") && negb (Str.is_ascii_capital c))
       "my-cool-api-v2" = true.
Proof.
  assert (_check_slug EmptyString (data_of (Some " My_Cool API.v2 ") None None None)
          = Ok "my-cool-api-v2") as H by reflexivity.
  split; [exact H|].
  exact (proj2 (check_slug_derived " My_Cool API.v2 "
                  (data_of (Some " My_Cool API.v2 ") None None None)
                  "my-cool-api-v2" eq_refl H)).
Defined.

(** C4: a slug that is absent or empty.  The field is required and at
    least two characters long, and that is checked before [_check_slug]
    runs, so the derivation from the name is never reached: validation fails
    at the field.  Handed the empty value, the validator itself would derive
    the slug of the spec's example. *)
Theorem C4_empty_slug_rejected :
  (forall info : ValidationInfo, slug_field None info = Raise ValueError)
  /\ (forall info : ValidationInfo, slug_field (Some EmptyString) info = Raise ValueError)
  /\ model_validate tls_flag ["python"; "main.py"] (sample_values (Some EmptyString) None false)
     = Raise (ValidationError ["slug"])
  /\ model_validate tls_flag ["python"; "main.py"] (sample_values None None false)
     = Raise (ValidationError ["slug"])
  /\ str_field 2 128 (Some "My Cool API") = Ok "My Cool API"
  /\ _check_slug EmptyString (data_of (Some "My Cool API") None None None)
     = Ok "my-cool-api".
Proof. repeat split. Qed.

(** ** The version placeholder of the prefix *)

(** C8, as amended.  For a prefix made of literal text without braces and
    occurrences of the version placeholder, with the version validated,
    [_check_prefix] replaces every occurrence by the version in one pass,
    and no placeholder remains when the version holds no opening brace;
    without a validated version the prefix is returned as it is. *)
Theorem C8_prefix_expansion :
  (forall (segs : list segment) (version0 : string) (info : ValidationInfo),
      data_version info = Some version0 ->
      forallb (template_of "api_version") segs = true ->
      _check_prefix (render segs) info = Ok (expand version0 segs)
      /\ (no_open_brace version0 = true ->
          Str.contains (expand version0 segs) "{api_version}" = false))
  /\ (forall (val : string) (info : ValidationInfo),
         data_version info = None -> _check_prefix val info = Ok val).
Proof.
  split.
  - intros segs version0 info Hv Ht. split.
    + unfold _check_prefix. rewrite Hv.
      pose proof (expand_if_template "api_version" version0 segs eq_refl Ht) as E.
      cbn [String.append] in E.
      destruct (Str.contains (render segs) "{api_version}") eqn:Ec.
      * rewrite (truthy_of_contains _ _ Ec) by discriminate. exact E.
      * rewrite andb_false_r. exact E.
    + intros Hb. apply contains_without_head.
      apply expand_no_open_brace; [exact Hb|].
      now apply (template_well_formed "api_version").
  - intros val info Hv. unfold _check_prefix. now rewrite Hv.
Qed.

Lemma C8_prefix_expansion_witness :
  _check_prefix "/api/{api_version}" (data_of None None (Some "v2") None)
  = Ok "/api/v2"
  /\ Str.contains "/api/v2" "{api_version}" = false.
Proof.
  destruct (proj1 C8_prefix_expansion [Lit "/api/"; Field "api_version"] "v2"
              (data_of None None (Some "v2") None) eq_refl eq_refl) as [H1 H2].
  split; [exact H1 | exact (H2 eq_refl)].
Defined.

(** C8 as stated fails: a doubled brace is an escaped brace for [format],
    so a placeholder written between doubled braces comes out as the
    placeholder; and a version that is itself the placeholder text is
    substituted once and stays.  In both cases the prefix holds the
    placeholder, the version is validated, and the placeholder remains. *)
Lemma C8_placeholder_can_remain :
  Str.contains "/{{api_version}}/{api_version}" "{api_version}" = true
  /\ _check_prefix "/{{api_version}}/{api_version}"
       (data_of None None (Some "v2") None)
     = Ok "/{api_version}/v2"
  /\ Str.contains "/{api_version}/v2" "{api_version}" = true
  /\ str_field 1 16 (Some "{api_version}") = Ok "{api_version}"
  /\ _check_prefix "/api/{api_version}"
       (data_of None None (Some "{api_version}") None)
     = Ok "/api/{api_version}".
Proof. repeat split. Qed.

(** ** A second run on the same mapping *)

Section Rerun.

Context {DevConfig SecurityConfig : Type}.
Variable ssl_enabled : SecurityConfig -> bool.

Lemma merge_self (o : override) : merge o o = o.
Proof. destruct o as [[] [h|] [p|]]; reflexivity. Qed.

Lemma apply_override_twice (o : override)
    (v : @Values DevConfig SecurityConfig) (g h : bool) :
  fst (apply_override o (fst (apply_override o (v, g)), h))
  = fst (apply_override o (v, g)).
Proof. destruct o as [[] [x|] [p|]]; reflexivity. Qed.

(** [_check_args] writes into the mapping it is given; run again on the
    mapping it left, it leaves the same mapping. *)
Lemma check_args_rerun (argv : list string)
    (v w : @Values DevConfig SecurityConfig) :
  _check_args ssl_enabled argv v = Ok w ->
  _check_args ssl_enabled argv w = Ok w.
Proof.
  destruct argv as [|program args]; [discriminate|].
  destruct (is_launcher program) eqn:L.
  - rewrite !(check_args_launcher _ _ _ _ L).
    destruct (scan_override (program :: args) 0 (program :: args)) as [o| |];
      cbn [bind]; try discriminate.
    cbv zeta. destruct o as [s [x|] [p|]];
      cbn [o_host];
      try (intros H; injection H as <-; destruct s; reflexivity).
    all: destruct (Str.endswith program "fastapi");
      [ destruct (Str.item (program :: args) 1) as [a| |]; cbn [bind];
        try discriminate; destruct (String.eqb a "run") | ];
      intros H; injection H as <-; destruct s; reflexivity.
  - rewrite !(check_args_other _ _ _ _ L).
    destruct (raw_security v) as [sec|] eqn:E; try discriminate.
    destruct (ssl_enabled sec) eqn:Es; intros H; injection H as <-.
    + cbn [raw_security set_http_scheme]. now rewrite E, Es.
    + now rewrite E, Es.
Qed.

End Rerun.

(** [_check_args] writes into the mapping it is handed.  Run again, with the
    same arguments, on the mapping it returned, it returns that mapping
    unchanged, so a second resolution from the mapping as the first one left
    it ends as the first did. *)
Theorem rerun_on_written_mapping :
  forall {DevConfig SecurityConfig : Type} (ssl_enabled : SecurityConfig -> bool)
         (argv : list string) (values values' : @Values DevConfig SecurityConfig),
    _check_args ssl_enabled argv values = Ok values' ->
    _check_args ssl_enabled argv values' = Ok values'
    /\ model_validate ssl_enabled argv values'
       = model_validate ssl_enabled argv values.
Proof.
  intros D S ssl_enabled argv values w H.
  pose proof (check_args_rerun _ _ _ _ H) as R.
  split; [exact R|]. unfold model_validate. now rewrite R, H.
Qed.

Lemma rerun_on_written_mapping_witness :
  model_validate tls_flag ["uvicorn"; "--ssl-keyfile=k.pem"; "--port"; "8000"]
    (set_port
       (set_bind_host
          (set_http_scheme (sample_values (Some "acme") None false) https)
          "127.0.0.1")
       8000)
  = model_validate tls_flag ["uvicorn"; "--ssl-keyfile=k.pem"; "--port"; "8000"]
      (sample_values (Some "acme") None false).
Proof.
  exact (proj2 (rerun_on_written_mapping tls_flag
                  ["uvicorn"; "--ssl-keyfile=k.pem"; "--port"; "8000"]
                  (sample_values (Some "acme") None false) _ eq_refl)).
Defined.

(** ** Further lemmas on strings *)

Lemma endswith_refl (p : string) : Str.endswith p p = true.
Proof. destruct p; cbn [Str.endswith]; now rewrite String.eqb_refl. Qed.

Lemma endswith_iff (s p : string) :
  Str.endswith s p = true <-> exists a, s = (a ++ p)%string.
Proof.
  split.
  - induction s as [|c s IH]; cbn [Str.endswith].
    + rewrite orb_false_r. intros H. apply String.eqb_eq in H.
      exists EmptyString. exact H.
    + intros H. apply orb_true_iff in H as [H|H].
      * apply String.eqb_eq in H. exists EmptyString. exact H.
      * destruct (IH H) as [a ->]. now exists (String c a).
  - intros [a ->]. induction a as [|c a IH]; [apply endswith_refl|].
    cbn [String.append Str.endswith]. rewrite IH. apply orb_true_r.
Qed.

Lemma split_cons (sep : ascii) (s : string) :
  exists h t, Str.split sep s = h :: t.
Proof.
  induction s as [|c s (h & t & IH)]; cbn; [now eexists; eexists|].
  destruct (Ascii.eqb c sep); [now eexists; eexists|].
  rewrite IH. now eexists; eexists.
Qed.

Lemma split_without_sep (sep : ascii) (s : string) :
  Str.forallb (fun c => negb (Ascii.eqb c sep)) s = true ->
  Str.split sep s = [s].
Proof.
  induction s as [|c s IH]; cbn; [reflexivity|].
  intros H. apply andb_true_iff in H as [Hc Hs].
  apply negb_true_iff in Hc. now rewrite Hc, (IH Hs).
Qed.





Lemma constr_Ok (min_length max_length : nat) (raw out : string) :
  constr min_length max_length raw = Ok out ->
  out = Str.strip_by Str.is_white_space raw
  /\ (min_length <= String.length out <= max_length)%nat.
Proof.
  unfold constr.
  destruct (String.length (Str.strip_by Str.is_white_space raw) <? min_length)%nat
    eqn:E1; [discriminate|].
  destruct (max_length <? String.length (Str.strip_by Str.is_white_space raw))%nat
    eqn:E2; [discriminate|].
  intros H. injection H as <-.
  apply Nat.ltb_ge in E1, E2. now repeat split.
Qed.

Lemma str_field_Ok (min_length max_length : nat) (raw : option string)
    (out : string) :
  str_field min_length max_length raw = Ok out ->
  exists s, raw = Some s
            /\ out = Str.strip_by Str.is_white_space s
            /\ (min_length <= String.length out <= max_length)%nat.
Proof.
  unfold str_field. destruct raw as [s|]; cbn; [|discriminate].
  intros H. exists s. split; [reflexivity | now apply constr_Ok].
Qed.

(** ** The last flag of a kind

    The scan keeps, for the host and for the port, what the last flag of that
    kind gave.  Both are instances of one argument on a component [get] of
    the override that the flags [flag] set through [read]. *)

Section LastWins.

Context {B : Type}.
Variable get : override -> option B.
Variable read : list string -> nat -> string -> result (option B).
Variable flag : list string -> nat -> string -> bool.

Hypothesis get_arg :
  forall argv i a o, arg_override argv i a = Ok o -> read argv i a = Ok (get o).
Hypothesis get_merge :
  forall o1 o2, get (merge o1 o2) = later (get o1) (get o2).
Hypothesis get_none : get no_override = None.
Hypothesis of_flag :
  forall argv i a, flag argv i a = false -> read argv i a = Ok None.

Lemma scan_override_none (argv rest : list string) (k : nat) (o : override) :
  scan_override argv k rest = Ok o ->
  (forall j b, nth_error rest j = Some b -> flag argv (k + j) b = false) ->
  get o = None.
Proof.
  revert k o. induction rest as [|a rest IH]; intros k o; cbn [scan_override].
  - intros H _. injection H as <-. exact get_none.
  - destruct (arg_override argv k a) as [o1| |] eqn:E1; cbn [bind]; try discriminate.
    destruct (scan_override argv (S k) rest) as [o'| |] eqn:E'; cbn [bind];
      try discriminate.
    intros H Hf. injection H as <-. rewrite get_merge.
    rewrite (IH _ _ E').
    + cbn [later]. apply get_arg in E1.
      rewrite (of_flag argv k a) in E1.
      * now injection E1 as <-.
      * specialize (Hf 0%nat a eq_refl). now rewrite Nat.add_0_r in Hf.
    + intros j b Hj. specialize (Hf (S j) b Hj).
      now replace (S k + j)%nat with (k + S j)%nat by lia.
Qed.

Lemma scan_override_last (argv rest : list string) (k : nat) (o : override)
    (i : nat) (a : string) (n : B) :
  scan_override argv k rest = Ok o ->
  nth_error rest i = Some a ->
  read argv (k + i) a = Ok (Some n) ->
  (forall j b, (i < j)%nat -> nth_error rest j = Some b ->
               flag argv (k + j) b = false) ->
  get o = Some n.
Proof.
  revert k o i. induction rest as [|x rest IH]; intros k o i; cbn [scan_override].
  - destruct i; discriminate.
  - destruct (arg_override argv k x) as [o1| |] eqn:E1; cbn [bind]; try discriminate.
    destruct (scan_override argv (S k) rest) as [o'| |] eqn:E'; cbn [bind];
      try discriminate.
    intros H Hi Hrd Hf. injection H as <-. rewrite get_merge.
    destruct i as [|i]; cbn [nth_error] in Hi.
    + injection Hi as ->. rewrite Nat.add_0_r in Hrd.
      apply get_arg in E1. rewrite Hrd in E1. injection E1 as <-.
      rewrite (scan_override_none _ _ _ _ E'); [reflexivity|].
      intros j b Hj. replace (S k + j)%nat with (k + S j)%nat by lia.
      apply Hf; [lia | exact Hj].
    + rewrite (IH _ _ i E' Hi); [reflexivity | | ].
      * now replace (S k + i)%nat with (k + S i)%nat by lia.
      * intros j b Hlt Hj. replace (S k + j)%nat with (k + S j)%nat by lia.
        apply Hf; [lia | exact Hj].
Qed.

End LastWins.

Lemma port_of_None (argv : list string) (i : nat) (a : string) :
  is_port_flag argv i a = false -> port_of argv i a = Ok None.
Proof.
  unfold is_port_flag, port_of. intros H.
  apply orb_false_iff in H as [H1 H2]. now rewrite H1, H2.
Qed.

Lemma arg_override_host (argv : list string) (i : nat) (a : string) (o : override) :
  arg_override argv i a = Ok o -> host_of argv i a = Ok (o_host o).
Proof.
  unfold arg_override.
  destruct (host_of argv i a) as [h| |]; cbn [bind]; try discriminate.
  destruct (port_of argv i a) as [p| |]; cbn [bind]; try discriminate.
  intros H. now injection H as <-.
Qed.

Lemma arg_override_port (argv : list string) (i : nat) (a : string) (o : override) :
  arg_override argv i a = Ok o -> port_of argv i a = Ok (o_port o).
Proof.
  unfold arg_override.
  destruct (host_of argv i a) as [h| |]; cbn [bind]; try discriminate.
  destruct (port_of argv i a) as [p| |]; cbn [bind]; try discriminate.
  intros H. now injection H as <-.
Qed.

Lemma scan_override_ports (argv rest : list string) (k : nat) (o : override) :
  scan_override argv k rest = Ok o ->
  forallb_from
    (fun i a => match port_of argv i a with Ok _ => true | _ => false end)
    k rest = true.
Proof.
  revert k o. induction rest as [|a rest IH]; intros k o;
    cbn [scan_override forallb_from]; [reflexivity|].
  destruct (arg_override argv k a) as [o1| |] eqn:E1; cbn [bind]; try discriminate.
  destruct (scan_override argv (S k) rest) as [o'| |] eqn:E'; cbn [bind];
    try discriminate.
  intros _. rewrite (arg_override_port _ _ _ _ E1). now rewrite (IH _ _ E').
Qed.

Section LaunchLemmas.

Context {DevConfig SecurityConfig : Type}.
Variable ssl_enabled : SecurityConfig -> bool.

(** What [_check_args] leaves under a launcher, in terms of the override the
    scan computes. *)
Lemma check_args_launcher_Ok (program : string) (args : list string)
    (v w : @Values DevConfig SecurityConfig) :
  is_launcher program = true ->
  _check_args ssl_enabled (program :: args) v = Ok w ->
  exists o,
    scan_override (program :: args) 0 (program :: args) = Ok o
    /\ raw_port w = later (raw_port v) (o_port o)
    /\ raw_bind_host w
       = Some match o_host o with
              | Some h => h
              | None =>
                  if Str.endswith program "fastapi"
                     && String.eqb (hd EmptyString args) "run"
                  then "0.0.0.0" else "127.0.0.1"
              end.
Proof.
  intros L. rewrite (check_args_launcher _ _ _ _ L).
  destruct (scan_override (program :: args) 0 (program :: args)) as [o| |];
    cbn [bind]; try discriminate.
  intros H. exists o. split; [reflexivity|]. revert H. cbv zeta.
  destruct o as [s [h|] [p|]]; cbn [o_host o_port later].
  1, 2: intros H; injection H as <-; destruct s; now split.
  all: destruct (Str.endswith program "fastapi"); cbn [andb];
    [ destruct args as [|a args]; cbn [Str.item nth_error bind hd];
      try discriminate; destruct (String.eqb a "run") | ];
    intros H; injection H as <-; destruct s; now split.
Qed.

End LaunchLemmas.

Lemma port_field_Ok (raw : option Z) (p : Z) :
  port_field raw = Ok p -> raw = Some p /\ (80 <= p < 65536)%Z.
Proof.
  unfold port_field, required, check_port. destruct raw as [q|]; cbn [bind];
    [|discriminate].
  destruct ((80 <=? q)%Z && (q <? 65536)%Z) eqn:E; [|discriminate].
  intros H. injection H as <-. apply andb_true_iff in E as [E1 E2].
  split; [reflexivity | lia].
Qed.

(** ** Launch flags: which value is kept *)

(** Under a launcher the port of a resolved configuration is the value of the
    last port flag on the command line; without any port flag it is the port
    of the raw mapping. *)
Theorem launch_port_last_wins :
  forall {DevConfig SecurityConfig : Type} (ssl_enabled : SecurityConfig -> bool)
         (program : string) (args : list string)
         (values : @Values DevConfig SecurityConfig) (cfg : ApiConfig),
    is_launcher program = true ->
    model_validate ssl_enabled (program :: args) values = Ok cfg ->
    (forall (i : nat) (a : string) (n : Z),
        nth_error (program :: args) i = Some a ->
        port_of (program :: args) i a = Ok (Some n) ->
        (forall j b, (i < j)%nat -> nth_error (program :: args) j = Some b ->
                     is_port_flag (program :: args) j b = false) ->
        port cfg = n)
    /\ ((forall j b, nth_error (program :: args) j = Some b ->
                     is_port_flag (program :: args) j b = false) ->
        raw_port values = Some (port cfg)).
Proof.
  intros D S ssl_enabled program args values cfg L H.
  apply model_validate_Ok in H as (w & Ha & Hf).
  destruct (check_args_launcher_Ok _ _ _ _ _ L Ha) as (o & Eo & Hp & _).
  apply validate_fields_Ok in Hf. destruct Hf as (_ & _ & _ & _ & Hport & _).
  apply port_field_Ok in Hport as [Hport _]. rewrite Hport in Hp.
  split.
  - intros i a n Hi Hn Hlast.
    rewrite (scan_override_last o_port port_of is_port_flag arg_override_port
               (fun _ _ => eq_refl) eq_refl port_of_None _ _ _ _ i a n Eo Hi Hn Hlast)
      in Hp.
    cbn in Hp. congruence.
  - intros Hnone.
    rewrite (scan_override_none o_port port_of is_port_flag arg_override_port
               (fun _ _ => eq_refl) eq_refl port_of_None _ _ _ _ Eo Hnone) in Hp.
    cbn in Hp. congruence.
Qed.

Lemma launch_port_last_wins_witness :
  port (sample_config http "127.0.0.1" false) = 8000%Z.
Proof.
  apply (proj1 (launch_port_last_wins tls_flag "uvicorn"
                  ["--port"; "9000"; "--port=8000"; "--reload"]
                  (sample_values (Some "acme") None false)
                  (sample_config http "127.0.0.1" false)
                  eq_refl eq_refl) 3%nat "--port=8000").
  - reflexivity.
  - reflexivity.
  - intros j b Hlt Hj. destruct j as [|[|[|[|[|j]]]]]; try lia.
    + cbn in Hj. injection Hj as <-. reflexivity.
    + cbn in Hj. destruct j; discriminate.
Defined.

(** Under a launcher the host [_check_args] leaves is the value of the last
    host flag, whatever the default would have been; a configuration
    resolved from it has that host, trimmed. *)
Theorem launch_host_last_wins :
  forall {DevConfig SecurityConfig : Type} (ssl_enabled : SecurityConfig -> bool)
         (program : string) (args : list string)
         (values values' : @Values DevConfig SecurityConfig)
         (i : nat) (a h : string),
    is_launcher program = true ->
    _check_args ssl_enabled (program :: args) values = Ok values' ->
    nth_error (program :: args) i = Some a ->
    host_of (program :: args) i a = Ok (Some h) ->
    (forall j b, (i < j)%nat -> nth_error (program :: args) j = Some b ->
                 is_host_flag (program :: args) j b = false) ->
    raw_bind_host values' = Some h
    /\ (forall cfg,
           model_validate ssl_enabled (program :: args) values = Ok cfg ->
           bind_host cfg = Str.strip_by Str.is_white_space h).
Proof.
  intros D S ssl_enabled program args values w i a h L Ha Hi Hh Hlast.
  destruct (check_args_launcher_Ok _ _ _ _ _ L Ha) as (o & Eo & _ & Hb).
  rewrite (scan_override_last o_host host_of is_host_flag arg_override_host
             (fun _ _ => eq_refl) eq_refl host_of_None _ _ _ _ i a h Eo Hi Hh Hlast)
    in Hb.
  split; [exact Hb|].
  intros cfg H. apply model_validate_Ok in H as (w' & Ha' & Hf).
  rewrite Ha in Ha'. injection Ha' as <-.
  apply validate_fields_Ok in Hf. destruct Hf as (_ & _ & _ & Hhost & _).
  apply str_field_Ok in Hhost as (s & Hs & -> & _). congruence.
Qed.

Lemma launch_host_last_wins_witness :
  exists values',
    _check_args tls_flag ["fastapi"; "run"; "--host=10.1.1.1"; "--host"; "10.0.0.7"]
      (sample_values (Some "acme") None false) = Ok values'
    /\ raw_bind_host values' = Some "10.0.0.7".
Proof.
  eexists. split; [reflexivity|].
  apply (launch_host_last_wins tls_flag "fastapi"
           ["run"; "--host=10.1.1.1"; "--host"; "10.0.0.7"]
           (sample_values (Some "acme") None false) _ 3%nat "--host" "10.0.0.7"
           eq_refl eq_refl eq_refl eq_refl).
  intros j b Hlt Hj. destruct j as [|[|[|[|[|j]]]]]; try lia.
  - cbn in Hj. injection Hj as <-. reflexivity.
  - cbn in Hj. destruct j; discriminate.
Defined.

(** Under a launcher [_check_args] always writes [bind_host], and what it
    writes does not depend on the raw mapping: the host configured in the
    settings is never used. *)
Theorem launcher_overrides_bind_host :
  forall {DevConfig SecurityConfig : Type} (ssl_enabled : SecurityConfig -> bool)
         (program : string) (args : list string)
         (v1 v2 w1 w2 : @Values DevConfig SecurityConfig),
    is_launcher program = true ->
    _check_args ssl_enabled (program :: args) v1 = Ok w1 ->
    _check_args ssl_enabled (program :: args) v2 = Ok w2 ->
    raw_bind_host w1 = raw_bind_host w2 /\ raw_bind_host w1 <> None.
Proof.
  intros D S ssl_enabled program args v1 v2 w1 w2 L H1 H2.
  destruct (check_args_launcher_Ok _ _ _ _ _ L H1) as (o1 & E1 & _ & B1).
  destruct (check_args_launcher_Ok _ _ _ _ _ L H2) as (o2 & E2 & _ & B2).
  rewrite E1 in E2. injection E2 as <-. rewrite B1, B2.
  split; [reflexivity | discriminate].
Qed.

Lemma launcher_overrides_bind_host_witness :
  raw_bind_host
    (set_bind_host (sample_values (Some "acme") None false) "127.0.0.1")
  = raw_bind_host
      (set_bind_host (sample_values (Some "other") (Some https) true) "127.0.0.1").
Proof.
  exact (proj1 (launcher_overrides_bind_host tls_flag "gunicorn" ["app:app"]
                  (sample_values (Some "acme") None false)
                  (sample_values (Some "other") (Some https) true)
                  _ _ eq_refl eq_refl eq_refl)).
Defined.

(** Under a launcher a configuration is resolved only if every port flag on
    the command line carries a value that [int()] accepts. *)
Theorem launcher_ports_must_parse :
  forall {DevConfig SecurityConfig : Type} (ssl_enabled : SecurityConfig -> bool)
         (program : string) (args : list string)
         (values : @Values DevConfig SecurityConfig) (cfg : ApiConfig),
    is_launcher program = true ->
    model_validate ssl_enabled (program :: args) values = Ok cfg ->
    ports_parse (program :: args) = true.
Proof.
  intros D S ssl_enabled program args values cfg L H.
  apply model_validate_Ok in H as (w & Ha & _).
  destruct (check_args_launcher_Ok _ _ _ _ _ L Ha) as (o & Eo & _).
  exact (scan_override_ports _ _ _ _ Eo).
Qed.

Lemma launcher_ports_must_parse_witness :
  ports_parse ["uvicorn"; "--port"; " 8_000 "; "--ssl-keyfile=k.pem"] = true.
Proof.
  apply (launcher_ports_must_parse tls_flag "uvicorn"
           ["--port"; " 8_000 "; "--ssl-keyfile=k.pem"]
           (sample_values (Some "acme") None false)
           (sample_config https "127.0.0.1" false)).
  - reflexivity.
  - vm_compute. reflexivity.
Defined.

(** Under a launcher, without any argument that begins with [--ssl], the
    resolved scheme is the one of the raw mapping, http when it gives
    none. *)
Theorem launcher_scheme_without_ssl_flag :
  forall {DevConfig SecurityConfig : Type} (ssl_enabled : SecurityConfig -> bool)
         (program : string) (args : list string)
         (values : @Values DevConfig SecurityConfig) (cfg : ApiConfig),
    is_launcher program = true ->
    has_ssl_flag (program :: args) = false ->
    model_validate ssl_enabled (program :: args) values = Ok cfg ->
    http_scheme cfg
    = match raw_http_scheme values with Some x => x | None => http end.
Proof.
  intros D S ssl_enabled program args values cfg L Hs H.
  apply model_validate_Ok in H as (w & Ha & Hf).
  pose proof (check_args_scheme _ _ _ _ _ Ha) as E. rewrite L, Hs in E.
  apply validate_fields_Ok in Hf. destruct Hf as (_ & _ & Hsch & _).
  rewrite E in Hsch. unfold http_scheme_field in Hsch.
  destruct (raw_http_scheme values); now injection Hsch as <-.
Qed.

Lemma launcher_scheme_without_ssl_flag_witness :
  http_scheme (sample_config https "127.0.0.1" true) = https.
Proof.
  apply (launcher_scheme_without_ssl_flag tls_flag "gunicorn" ["app:app"; "-w"; "4"]
           (sample_values (Some "acme") (Some https) true)
           (sample_config https "127.0.0.1" true)).
  - reflexivity.
  - reflexivity.
  - vm_compute. reflexivity.
Defined.

(** [_check_args] touches three entries at most: whatever the program and
    its arguments, every entry other than the scheme, the host and the port
    is in the mapping it returns as it was in the mapping it was given. *)
Theorem check_args_frame :
  forall {DevConfig SecurityConfig : Type} (ssl_enabled : SecurityConfig -> bool)
         (argv : list string) (values values' : @Values DevConfig SecurityConfig),
    _check_args ssl_enabled argv values = Ok values' ->
    same_settings values values'.
Proof.
  intros D S ssl_enabled [|program args] values w H; [discriminate|].
  exact (check_args_settings _ _ _ _ _ H).
Qed.

Lemma check_args_frame_witness :
  same_settings (sample_values (Some "acme") None true)
    (set_port
       (set_bind_host
          (set_http_scheme (sample_values (Some "acme") None true) https)
          "0.0.0.0")
       9000).
Proof.
  apply (check_args_frame tls_flag
           ["uvicorn"; "--host=0.0.0.0"; "--port"; "9000"; "--ssl-certfile"; "c.pem"]).
  reflexivity.
Defined.



(** ** Launch flags: what is read from one argument *)

(** [--host=VALUE] sets the host to the text of VALUE up to its first [=],
    all of VALUE when it holds none, and marks the host as given;
    [--port=VALUE] hands that same part of VALUE to [int()]. *)
Theorem flag_with_equals_value :
  forall {DevConfig SecurityConfig : Type} (argv : list string) (_i : nat)
         (value : string) (values : @Values DevConfig SecurityConfig)
         (_has_host : bool),
    scan_arg argv _i ("--host=" ++ value) (values, _has_host)
    = Ok (set_bind_host values (hd EmptyString (Str.split "=" value)), true)
    /\ scan_arg argv _i ("--port=" ++ value) (values, _has_host)
       = (n <- Str.int (hd EmptyString (Str.split "=" value)) ;;
          Ok (set_port values n, _has_host))
    /\ (Str.forallb (fun c => negb (Ascii.eqb c "=")) value = true ->
        hd EmptyString (Str.split "=" value) = value).
Proof.
  intros D S argv i value values b.
  destruct (split_cons "=" value) as (h & t & E).
  split; [|split].
  - unfold scan_arg.
    rewrite (startswith_append "--host=" value).
    replace (Str.startswith ("--host=" ++ value) "--ssl") with false by reflexivity.
    replace (Str.startswith ("--host=" ++ value) "--port=") with false
      by reflexivity.
    replace (String.eqb ("--host=" ++ value) "--port") with false by reflexivity.
    replace (Str.split "=" ("--host=" ++ value)) with ("--host" :: h :: t)
      by (cbn; now rewrite E).
    rewrite E. reflexivity.
  - unfold scan_arg.
    rewrite (startswith_append "--port=" value).
    replace (Str.startswith ("--port=" ++ value) "--ssl") with false by reflexivity.
    replace (Str.startswith ("--port=" ++ value) "--host=") with false
      by reflexivity.
    replace (String.eqb ("--port=" ++ value) "--host") with false by reflexivity.
    replace (Str.split "=" ("--port=" ++ value)) with ("--port" :: h :: t)
      by (cbn; now rewrite E).
    rewrite E. reflexivity.
  - intros H. now rewrite (split_without_sep _ _ H).
Qed.

(** A program is a launcher exactly when its name is one of uvicorn, fastapi
    and gunicorn after any leading text, a directory or other. *)
Theorem is_launcher_suffix :
  forall program : string,
    is_launcher program = true <->
    exists lead : string,
      program = (lead ++ "uvicorn")%string
      \/ program = (lead ++ "fastapi")%string
      \/ program = (lead ++ "gunicorn")%string.
Proof.
  intros program. unfold is_launcher. rewrite !orb_true_iff, !endswith_iff.
  split.
  - intros [[[a H]|[a H]]|[a H]]; exists a; tauto.
  - intros [a [H|[H|H]]]; [left; left | left; right | right]; now exists a.
Qed.

(** ** Bounds of a resolved configuration *)

Lemma check_slug_truthy (val : string) (info : ValidationInfo) (out : string) :
  (1 <= String.length val)%nat -> _check_slug val info = Ok out -> out = val.
Proof.
  intros Hl. unfold _check_slug. destruct val as [|c val]; [cbn in Hl; lia|].
  cbn [truthy String.eqb negb]. destruct (data_name info); congruence.
Qed.



(** In every resolved configuration the slug is the raw slug with its
    surrounding white space removed: whatever the name, no resolved slug is
    derived from it. *)
Theorem resolved_slug_is_raw_slug :
  forall {DevConfig SecurityConfig : Type} (ssl_enabled : SecurityConfig -> bool)
         (argv : list string) (values : @Values DevConfig SecurityConfig)
         (cfg : ApiConfig),
    model_validate ssl_enabled argv values = Ok cfg ->
    exists raw : string,
      raw_slug values = Some raw
      /\ slug cfg = Str.strip_by Str.is_white_space raw.
Proof.
  intros D S ssl_enabled argv values cfg H.
  apply model_validate_Ok in H as (w & Ha & Hf).
  destruct argv as [|program args]; [discriminate|].
  pose proof (check_args_settings _ _ _ _ _ Ha) as (_ & Hslug & _).
  apply validate_fields_Ok in Hf. destruct Hf as (_ & Hs & _).
  unfold slug_field in Hs.
  destruct (str_field 2 128 (raw_slug w)) as [s1| |] eqn:Es; try discriminate.
  cbn [bind] in Hs. apply str_field_Ok in Es as (s0 & E0 & Es & Ls).
  apply check_slug_truthy in Hs; [|lia].
  exists s0. split; congruence.
Qed.

Lemma resolved_slug_is_raw_slug_witness :
  exists raw : string,
    raw_slug (sample_values (Some "  acme ") None true) = Some raw
    /\ slug (sample_config https "10.0.0.5" true)
       = Str.strip_by Str.is_white_space raw.
Proof.
  apply (resolved_slug_is_raw_slug tls_flag ["python"; "main.py"]).
  vm_compute. reflexivity.
Defined.

(** ** Placeholders across fields *)

Lemma expand_when_truthy (key value : string) (segs : list segment) :
  plain_name key = true ->
  forallb (template_of key) segs = true ->
  (if truthy (render segs)
      && Str.contains (render segs) (String "{" (key ++ "}"))
   then Str.format (render segs) key value
   else Ok (render segs))
  = Ok (expand value segs).
Proof.
  intros Hk Ht.
  pose proof (expand_if_template key value segs Hk Ht) as E.
  destruct (Str.contains (render segs) (String "{" (key ++ "}"))) eqn:Ec.
  - rewrite (truthy_of_contains _ _ Ec) by discriminate. exact E.
  - rewrite andb_false_r. exact E.
Qed.

Lemma check_prefix_template (version0 : string) (info : ValidationInfo)
    (segs : list segment) :
  data_version info = Some version0 ->
  forallb (template_of "api_version") segs = true ->
  _check_prefix (render segs) info = Ok (expand version0 segs).
Proof.
  intros Hv Ht. unfold _check_prefix. rewrite Hv.
  exact (expand_when_truthy "api_version" version0 segs eq_refl Ht).
Qed.

Lemma expand_url_template (api_prefix : string) (t : option (list segment)) :
  url_template t = true ->
  expand_url (option_map render t) api_prefix
  = Ok (option_map (expand api_prefix) t).
Proof.
  destruct t as [segs|]; cbn [url_template option_map expand_url];
    [|reflexivity].
  intros Ht.
  pose proof (expand_when_truthy "api_prefix" api_prefix segs eq_refl Ht) as E.
  cbn [String.append] in E.
  destruct (truthy (render segs) && Str.contains (render segs) "{api_prefix}").
  - now rewrite E.
  - now injection E as <-.
Qed.

Lemma expand_url_frame (url out : option string) (api_prefix : string) :
  expand_url url api_prefix = Ok out ->
  match url with
  | Some u =>
      if truthy u && Str.contains u "{api_prefix}"
      then exists e, Str.format u "api_prefix" api_prefix = Ok e /\ out = Some e
      else out = url
  | None => out = None
  end.
Proof.
  unfold expand_url. destruct url as [u|]; [|now intros H; injection H as <-].
  destruct (truthy u && Str.contains u "{api_prefix}").
  - destruct (Str.format u "api_prefix" api_prefix) as [e| |]; cbn; try discriminate.
    intros H. injection H as <-. now exists e.
  - now intros H; injection H as <-.
Qed.

(** With docs enabled and the prefix validated, [_check_docs] expands each of
    the four URLs on its own: a URL given as a template of the prefix
    placeholder has every placeholder replaced by the prefix, and a URL that
    is not set stays so. *)
Theorem check_docs_expansion :
  forall (api_prefix : string) (info : ValidationInfo)
         (o d r s : option (list segment)),
    data_prefix info = Some api_prefix ->
    url_template o = true -> url_template d = true ->
    url_template r = true -> url_template s = true ->
    _check_docs
      {| docs_enabled := true;
         openapi_url := option_map render o;
         docs_url := option_map render d;
         redoc_url := option_map render r;
         swagger_ui_oauth2_redirect_url := option_map render s |}
      info
    = Ok {| docs_enabled := true;
            openapi_url := option_map (expand api_prefix) o;
            docs_url := option_map (expand api_prefix) d;
            redoc_url := option_map (expand api_prefix) r;
            swagger_ui_oauth2_redirect_url := option_map (expand api_prefix) s |}.
Proof.
  intros api_prefix info o d r s Hp Ho Hd Hr Hs.
  unfold _check_docs. rewrite Hp.
  cbn [docs_enabled openapi_url docs_url redoc_url swagger_ui_oauth2_redirect_url].
  rewrite !expand_url_template by assumption. reflexivity.
Qed.

Lemma check_docs_expansion_witness :
  _check_docs
    {| docs_enabled := true;
       openapi_url := Some "{api_prefix}/openapi.json";
       docs_url := Some "/docs";
       redoc_url := None;
       swagger_ui_oauth2_redirect_url := Some "" |}
    (data_of None None None (Some "/api/v2"))
  = Ok {| docs_enabled := true;
          openapi_url := Some "/api/v2/openapi.json";
          docs_url := Some "/docs";
          redoc_url := None;
          swagger_ui_oauth2_redirect_url := Some "" |}.
Proof.
  exact (check_docs_expansion "/api/v2" (data_of None None None (Some "/api/v2"))
           (Some [Field "api_prefix"; Lit "/openapi.json"]) (Some [Lit "/docs"])
           None (Some []) eq_refl eq_refl eq_refl eq_refl eq_refl).
Defined.

(** [_check_docs] never changes the enabled flag; with docs disabled or the
    prefix not validated it returns the record as given and formats nothing;
    and whenever it returns, a URL that is not set, is empty or holds no
    prefix placeholder is in the result as it was, braces or not. *)
Theorem check_docs_frame :
  (forall (val : DocsConfig) (info : ValidationInfo),
      docs_enabled val = false \/ data_prefix info = None ->
      _check_docs val info = Ok val)
  /\ (forall (val val' : DocsConfig) (info : ValidationInfo)
             (url : DocsConfig -> option string),
         _check_docs val info = Ok val' ->
         docs_enabled val' = docs_enabled val
         /\ (In url docs_urls ->
             match url val with
             | Some u =>
                 truthy u && Str.contains u "{api_prefix}" = false ->
                 url val' = Some u
             | None => url val' = None
             end)).
Proof.
  split.
  - intros val info [H|H]; unfold _check_docs.
    + rewrite H. now destruct (data_prefix info).
    + now rewrite H.
  - intros val val' info url. unfold _check_docs.
    destruct (data_prefix info) as [p|];
      [destruct (docs_enabled val) eqn:En|].
    + destruct (expand_url (openapi_url val) p) as [o| |] eqn:Eo; cbn [bind];
        try discriminate.
      destruct (expand_url (docs_url val) p) as [d| |] eqn:Ed; cbn [bind];
        try discriminate.
      destruct (expand_url (redoc_url val) p) as [r| |] eqn:Er; cbn [bind];
        try discriminate.
      destruct (expand_url (swagger_ui_oauth2_redirect_url val) p) as [s| |] eqn:Es;
        cbn [bind]; try discriminate.
      intros H. injection H as <-. split; [reflexivity|].
      apply expand_url_frame in Eo, Ed, Er, Es.
      intros [<-|[<-|[<-|[<-|[]]]]];
        cbn [openapi_url docs_url redoc_url swagger_ui_oauth2_redirect_url].
      * destruct (openapi_url val) as [u|]; [|exact Eo].
        intros Hu. now rewrite Hu in Eo.
      * destruct (docs_url val) as [u|]; [|exact Ed].
        intros Hu. now rewrite Hu in Ed.
      * destruct (redoc_url val) as [u|]; [|exact Er].
        intros Hu. now rewrite Hu in Er.
      * destruct (swagger_ui_oauth2_redirect_url val) as [u|]; [|exact Es].
        intros Hu. now rewrite Hu in Es.
    + intros H. injection H as <-. split; [exact En|].
      intros _. now destruct (url val).
    + intros H. injection H as <-. split; [reflexivity|].
      intros _. now destruct (url val).
Qed.

Lemma check_docs_frame_witness :
  _check_docs
    {| docs_enabled := false;
       openapi_url := Some "{api_prefix}/openapi.json";
       docs_url := Some "{broken";
       redoc_url := None;
       swagger_ui_oauth2_redirect_url := None |}
    (data_of None None None (Some "/api/v2"))
  = Ok {| docs_enabled := false;
          openapi_url := Some "{api_prefix}/openapi.json";
          docs_url := Some "{broken";
          redoc_url := None;
          swagger_ui_oauth2_redirect_url := None |}.
Proof.
  apply (proj1 check_docs_frame). left. reflexivity.
Defined.

(** In a resolved configuration a docs URL is expanded with the prefix as
    resolved, that is after the version went into it: for a trimmed raw
    prefix that is a template of the version placeholder and an enabled docs
    URL that is a template of the prefix placeholder, the resolved prefix is
    the first with the resolved version substituted, and the resolved URL the
    second with that prefix substituted. *)
Theorem docs_follow_resolved_prefix :
  forall {DevConfig SecurityConfig : Type} (ssl_enabled : SecurityConfig -> bool)
         (argv : list string) (values : @Values DevConfig SecurityConfig)
         (cfg : ApiConfig) (docs0 : DocsConfig)
         (url : DocsConfig -> option string) (P U : list segment),
    model_validate ssl_enabled argv values = Ok cfg ->
    raw_prefix values = Some (render P) ->
    Str.strip_by Str.is_white_space (render P) = render P ->
    forallb (template_of "api_version") P = true ->
    raw_docs values = Some docs0 ->
    docs_enabled docs0 = true ->
    In url docs_urls ->
    url docs0 = Some (render U) ->
    forallb (template_of "api_prefix") U = true ->
    prefix cfg = expand (version cfg) P
    /\ url (docs cfg) = Some (expand (expand (version cfg) P) U).
Proof.
  intros D S ssl_enabled argv values cfg docs0 url P U H HP Htrim HtP Hdocs Hen
         Hurl HU HtU.
  apply model_validate_Ok in H as (w & Ha & Hf).
  destruct argv as [|program args]; [discriminate|].
  pose proof (check_args_settings _ _ _ _ _ Ha)
    as (_ & _ & _ & Hpre & _ & _ & _ & _ & _ & Hd & _).
  apply validate_fields_Ok in Hf.
  destruct Hf as (_ & _ & _ & _ & _ & _ & Hprefix & _ & _ & _ & _ & _ & Hdf & _).
  rewrite Hpre, HP in Hprefix. rewrite Hd, Hdocs in Hdf.
  unfold prefix_field, str_field, required, constr in Hprefix.
  cbn [bind] in Hprefix. rewrite Htrim in Hprefix.
  destruct (String.length (render P) <? 0)%nat; [discriminate|].
  destruct (128 <? String.length (render P))%nat; [discriminate|].
  cbn [bind] in Hprefix.
  rewrite (check_prefix_template (version cfg)
             (data_of (Some (name cfg)) (Some (slug cfg)) (Some (version cfg)) None)
             P eq_refl HtP) in Hprefix.
  injection Hprefix as Hprefix. split; [now symmetry|].
  unfold docs_field, required in Hdf. cbn [bind] in Hdf.
  unfold _check_docs in Hdf. cbn [data_of data_prefix] in Hdf.
  rewrite Hen in Hdf.
  destruct (expand_url (openapi_url docs0) (prefix cfg)) as [o| |] eqn:Eo;
    cbn [bind] in Hdf; try discriminate.
  destruct (expand_url (docs_url docs0) (prefix cfg)) as [d| |] eqn:Ed;
    cbn [bind] in Hdf; try discriminate.
  destruct (expand_url (redoc_url docs0) (prefix cfg)) as [r| |] eqn:Er;
    cbn [bind] in Hdf; try discriminate.
  destruct (expand_url (swagger_ui_oauth2_redirect_url docs0) (prefix cfg))
    as [s| |] eqn:Es; cbn [bind] in Hdf; try discriminate.
  injection Hdf as <-.
  pose proof (expand_url_template (prefix cfg) (Some U) HtU) as E.
  cbn [option_map] in E. rewrite <- Hprefix in E.
  destruct Hurl as [<-|[<-|[<-|[<-|[]]]]];
    cbn [openapi_url docs_url redoc_url swagger_ui_oauth2_redirect_url];
    rewrite HU in *; congruence.
Qed.

Lemma docs_follow_resolved_prefix_witness :
  prefix (sample_config http "10.0.0.5" false) = "/api/v2"
  /\ openapi_url (docs (sample_config http "10.0.0.5" false))
     = Some "/api/v2/openapi.json".
Proof.
  exact (docs_follow_resolved_prefix tls_flag ["python"; "main.py"]
           (sample_values (Some "acme") None false)
           (sample_config http "10.0.0.5" false) sample_docs openapi_url
           [Lit "/api/"; Field "api_version"]
           [Field "api_prefix"; Lit "/openapi.json"]
           eq_refl eq_refl eq_refl eq_refl eq_refl eq_refl
           (or_introl eq_refl) eq_refl eq_refl).
Defined.

Lemma check_paths_template (api_slug : string) (info : ValidationInfo)
    (t u d : list segment) :
  data_slug info = Some api_slug ->
  forallb (template_of "api_slug") t = true ->
  forallb (template_of "tmp_dir") u = true ->
  forallb (template_of "api_slug") d = true ->
  _check_paths
    {| tmp_dir := render t; uploads_dir := render u; data_dir := render d |} info
  = Ok {| tmp_dir := expand api_slug t;
          uploads_dir := expand (expand api_slug t) u;
          data_dir := expand api_slug d |}.
Proof.
  intros Hs Ht Hu Hd. unfold _check_paths. rewrite Hs.
  cbn [tmp_dir uploads_dir data_dir].
  pose proof (expand_if_template "api_slug" api_slug t eq_refl Ht) as Et.
  pose proof (expand_if_template "api_slug" api_slug d eq_refl Hd) as Ed.
  pose proof (expand_if_template "tmp_dir" (expand api_slug t) u eq_refl Hu) as Eu.
  assert (Str.contains (render u) "{api_slug}" = false) as En
    by (apply (template_without_token "api_slug" "tmp_dir");
        [reflexivity | reflexivity | discriminate | exact Hu]).
  cbn [String.append] in Et, Ed, Eu.
  rewrite Et. cbn [bind]. rewrite En, Eu. cbn [bind]. now rewrite Ed.
Qed.

(** In a resolved configuration the directories are expanded with the slug
    as resolved, the trimmed raw slug: for raw directories that are templates
    (the temp and data directories of the slug placeholder, the uploads
    directory of the temp-dir placeholder) the resolved ones are these with
    the resolved slug, and the resolved temp directory, substituted. *)
Theorem paths_follow_resolved_slug :
  forall {DevConfig SecurityConfig : Type} (ssl_enabled : SecurityConfig -> bool)
         (argv : list string) (values : @Values DevConfig SecurityConfig)
         (cfg : ApiConfig) (t u d : list segment),
    model_validate ssl_enabled argv values = Ok cfg ->
    raw_paths values
    = Some {| tmp_dir := render t; uploads_dir := render u; data_dir := render d |} ->
    forallb (template_of "api_slug") t = true ->
    forallb (template_of "tmp_dir") u = true ->
    forallb (template_of "api_slug") d = true ->
    paths cfg
    = {| tmp_dir := expand (slug cfg) t;
         uploads_dir := expand (expand (slug cfg) t) u;
         data_dir := expand (slug cfg) d |}.
Proof.
  intros D S ssl_enabled argv values cfg t u d H Hp Ht Hu Hd.
  apply model_validate_Ok in H as (w & Ha & Hf).
  destruct argv as [|program args]; [discriminate|].
  pose proof (check_args_settings _ _ _ _ _ Ha)
    as (_ & _ & _ & _ & _ & _ & _ & _ & _ & _ & Hpaths).
  apply validate_fields_Ok in Hf.
  destruct Hf as (_ & _ & _ & _ & _ & _ & _ & _ & _ & _ & _ & _ & _ & Hpf).
  rewrite Hpaths, Hp in Hpf. unfold paths_field, required in Hpf.
  cbn [bind] in Hpf.
  rewrite (check_paths_template (slug cfg)
             (data_of (Some (name cfg)) (Some (slug cfg)) (Some (version cfg))
                (Some (prefix cfg))) t u d eq_refl Ht Hu Hd) in Hpf.
  now injection Hpf as <-.
Qed.

Lemma paths_follow_resolved_slug_witness :
  paths (sample_config http "10.0.0.5" false)
  = {| tmp_dir := "/var/tmp/acme"; uploads_dir := "/var/tmp/acme/uploads";
       data_dir := "/var/lib/acme" |}.
Proof.
  exact (paths_follow_resolved_slug tls_flag ["python"; "main.py"]
           (sample_values (Some " acme ") None false)
           (sample_config http "10.0.0.5" false)
           [Lit "/var/tmp/"; Field "api_slug"] [Field "tmp_dir"; Lit "/uploads"]
           [Lit "/var/lib/"; Field "api_slug"]
           eq_refl eq_refl eq_refl eq_refl eq_refl).
Defined.

(** ** How [_check_args] can fail under a launcher *)

Lemma startswith_split (s p : string) :
  Str.startswith s p = true -> exists r, s = (p ++ r)%string.
Proof.
  revert s. induction p as [|b p IH]; intros s; cbn [Str.startswith].
  - intros _. now exists s.
  - destruct s as [|a s]; [discriminate|].
    intros H. apply andb_true_iff in H as [Hab H].
    apply Ascii.eqb_eq in Hab. subst b.
    destruct (IH _ H) as [r ->]. now exists r.
Qed.

Lemma item_in_range {A : Type} (xs : list A) (i : nat) :
  (i <? List.length xs)%nat = true -> exists x, Str.item xs i = Ok x.
Proof.
  intros H. apply Nat.ltb_lt in H. unfold Str.item.
  destruct (nth_error xs i) as [x|] eqn:E; [now exists x|].
  apply nth_error_None in E. lia.
Qed.

Lemma item_after_equals (p value : string) :
  Str.forallb (fun c => negb (Ascii.eqb c "=")) p = true ->
  Str.item (Str.split "=" (p ++ String "=" value)) 1
  = Ok (hd EmptyString (Str.split "=" value)).
Proof.
  intros Hp. destruct (split_cons "=" value) as (h & t & E).
  assert (Str.split "=" (p ++ String "=" value) = p :: h :: t) as ->.
  { induction p as [|c p IH]; cbn [String.append Str.split].
    - rewrite Ascii.eqb_refl. now rewrite E.
    - cbn [Str.forallb] in Hp. apply andb_true_iff in Hp as [Hc Hp].
      apply negb_true_iff in Hc. now rewrite Hc, (IH Hp). }
  now rewrite E.
Qed.

Lemma host_of_total (argv : list string) (i : nat) (a : string) :
  exists h, host_of argv i a = Ok h.
Proof.
  unfold host_of. destruct (Str.startswith a "--host=") eqn:E.
  - apply startswith_split in E as [r ->].
    change ("--host=" ++ r)%string with ("--host" ++ String "=" r)%string.
    rewrite item_after_equals by reflexivity. cbn. eauto.
  - destruct (String.eqb a "--host" && (i + 1 <? List.length argv)%nat) eqn:E';
      [|eauto].
    apply andb_true_iff in E' as [_ E'].
    destruct (item_in_range _ _ E') as [x ->]. cbn. eauto.
Qed.

Lemma int_raises (s : string) (e : exn) : Str.int s = Raise e -> e = ValueError.
Proof.
  unfold Str.int.
  destruct (4300 <? String.length (Str.strip_by Str.is_white_space s))%nat;
    [discriminate|].
  destruct (Str.int_signed (Str.strip_by Str.is_white_space s)); [discriminate|].
  intros H. now injection H as <-.
Qed.

Lemma port_of_raises (argv : list string) (i : nat) (a : string) (e : exn) :
  port_of argv i a = Raise e -> e = ValueError.
Proof.
  unfold port_of. destruct (Str.startswith a "--port=") eqn:E.
  - apply startswith_split in E as [r ->].
    change ("--port=" ++ r)%string with ("--port" ++ String "=" r)%string.
    rewrite item_after_equals by reflexivity. cbn [bind].
    destruct (Str.int (hd EmptyString (Str.split "=" r))) eqn:Ei; cbn [bind];
      try discriminate.
    intros H. injection H as <-. exact (int_raises _ _ Ei).
  - destruct (String.eqb a "--port" && (i + 1 <? List.length argv)%nat) eqn:E';
      [|discriminate].
    apply andb_true_iff in E' as [_ E'].
    destruct (item_in_range _ _ E') as [x ->]. cbn [bind].
    destruct (Str.int x) eqn:Ei; cbn [bind]; try discriminate.
    intros H. injection H as <-. exact (int_raises _ _ Ei).
Qed.

Lemma scan_override_raises (argv rest : list string) (k : nat) (e : exn) :
  scan_override argv k rest = Raise e ->
  e = ValueError
  /\ forallb_from
       (fun i a => match port_of argv i a with Ok _ => true | _ => false end)
       k rest = false.
Proof.
  revert k. induction rest as [|a rest IH]; intros k;
    cbn [scan_override forallb_from]; [discriminate|].
  unfold arg_override. destruct (host_of_total argv k a) as [h ->]. cbn [bind].
  destruct (port_of argv k a) as [p| |] eqn:Ep; cbn [bind].
  - destruct (scan_override argv (S k) rest) as [o| |] eqn:E; cbn [bind];
      try discriminate.
    intros H. injection H as <-. exact (IH _ E).
  - intros H. injection H as <-. split; [|reflexivity].
    exact (port_of_raises _ _ _ _ Ep).
  - discriminate.
Qed.

(** Under a launcher [_check_args] raises in two ways only: the ValueError
    of a port flag whose value [int()] rejects, and the IndexError of a
    program named fastapi that was given no argument at all; a missing
    [security] entry, for one, cannot make it fail. *)
Theorem launcher_check_args_errors :
  forall {DevConfig SecurityConfig : Type} (ssl_enabled : SecurityConfig -> bool)
         (program : string) (args : list string)
         (values : @Values DevConfig SecurityConfig) (e : exn),
    is_launcher program = true ->
    _check_args ssl_enabled (program :: args) values = Raise e ->
    (e = ValueError /\ ports_parse (program :: args) = false)
    \/ (e = IndexError /\ Str.endswith program "fastapi" = true /\ args = []
        /\ has_host_flag [program] = false).
Proof.
  intros D S ssl_enabled program args values e L.
  rewrite (check_args_launcher _ _ _ _ L).
  destruct (scan_override (program :: args) 0 (program :: args)) as [o| |] eqn:Eo;
    cbn [bind]; try discriminate.
  - cbv zeta. destruct (o_host o) eqn:Eh; [discriminate|].
    destruct (Str.endswith program "fastapi"); [|discriminate].
    destruct args as [|a args]; cbn [Str.item nth_error bind].
    + intros H. injection H as <-. right. repeat split.
      now apply (scan_override_host _ _ _ _ Eo).
    + destruct (String.eqb a "run"); discriminate.
  - intros H. injection H as <-. left. exact (scan_override_raises _ _ _ _ Eo).
Qed.

Lemma launcher_check_args_errors_witness :
  (ValueError = ValueError /\ ports_parse ["gunicorn"; "--port"; "http"] = false)
  \/ (ValueError = IndexError /\ Str.endswith "gunicorn" "fastapi" = true
      /\ ["--port"; "http"] = [] /\ has_host_flag ["gunicorn"] = false).
Proof.
  apply (launcher_check_args_errors tls_flag "gunicorn" ["--port"; "http"]
           (sample_values (Some "acme") None false)); reflexivity.
Defined.
